(** * DocuGen AI: the project / section content lifecycle

    A shallow embedding of the client pages (Configure, Editor), of the
    refine-content edge function and of the relational schema they run
    against, followed by the properties of the lifecycle.

    Conventions of the embedding:
    - UUIDs are natural numbers drawn from a counter kept in the store
      (the columns' [gen_random_uuid()] default);
    - the timestamp columns are left out, no code path reads them;
    - a table is the list of its rows in insertion order;
    - every call of the data store client resolves to a result object
      that carries either data or an error, it never throws; whether the
      store served a call is an input of the model (a [bool] per call);
    - an [async] function is a computation over the [World]: the store,
      the log of the stores committed so far and the toasts shown. *)

From Stdlib Require Import QArith Ascii String Sorted.
From stdpp Require Import base list strings gmap.

Open Scope string_scope.
Open Scope list_scope.
Open Scope nat_scope.

(** ** Schema (supabase migration) *)

Abbreviation Id := nat (only parsing).

Inductive DocumentType := docx | pptx.
Inductive Status := draft | generating | completed.

#[global] Instance DocumentType_eq_dec : EqDecision DocumentType.
Proof. solve_decision. Defined.
#[global] Instance Status_eq_dec : EqDecision Status.
Proof. solve_decision. Defined.

Record ProjectRow := mkProject {
  p_id : Id;
  p_user_id : Id;
  p_document_type : DocumentType;
  p_topic : string;
  p_status : Status
}.

Record SectionRow := mkSection {
  s_id : Id;
  s_project_id : Id;
  s_order_index : Z;
  s_title : string;
  s_content : option string;
  s_is_generated : bool
}.

Record RefinementRow := mkRefinement {
  r_id : Id;
  r_section_id : Id;
  r_prompt : string;
  r_previous_content : option string;
  r_new_content : string
}.

Record FeedbackRow := mkFeedback {
  f_id : Id;
  f_section_id : Id;
  f_is_liked : option bool;
  f_comment : option string
}.

Record Store := mkStore {
  projects : list ProjectRow;
  sections : list SectionRow;
  refinement_history : list RefinementRow;
  feedback : list FeedbackRow;
  next_id : Id
}.

Definition empty_store : Store := mkStore [] [] [] [] 0.

#[global] Instance ProjectRow_eq_dec : EqDecision ProjectRow.
Proof. solve_decision. Defined.
#[global] Instance SectionRow_eq_dec : EqDecision SectionRow.
Proof. solve_decision. Defined.
#[global] Instance RefinementRow_eq_dec : EqDecision RefinementRow.
Proof. solve_decision. Defined.
#[global] Instance FeedbackRow_eq_dec : EqDecision FeedbackRow.
Proof. solve_decision. Defined.
#[global] Instance Store_eq_dec : EqDecision Store.
Proof. solve_decision. Defined.

(** ** Statements of the data store

    Each statement is a function from the store to a result and the next
    store.  A statement that violates a constraint of the schema returns
    an error and leaves the store as it was. *)

Inductive PgResult (A : Type) :=
  | PgData (data : A)
  | PgError (message : string).
Arguments PgData {A} data.
Arguments PgError {A} message.

Definition pg_error {A} (r : PgResult A) : option string :=
  match r with PgData _ => None | PgError m => Some m end.

Definition has_project (st : Store) (id : Id) : bool :=
  existsb (fun p => Nat.eqb (p_id p) id) (projects st).

Definition has_section (st : Store) (id : Id) : bool :=
  existsb (fun s => Nat.eqb (s_id s) id) (sections st).

(** [from('projects').insert({...}).select().single()] *)
Definition insert_project (user_id : Id) (dt : DocumentType) (topic : string)
    (status : Status) (st : Store) : PgResult ProjectRow * Store :=
  let row := mkProject (next_id st) user_id dt topic status in
  (PgData row,
   mkStore (projects st ++ [row]) (sections st) (refinement_history st)
           (feedback st) (S (next_id st))).

(** The payload of one row of [from('sections').insert(sectionsData)]:
    [content] and [is_generated] take their column defaults. *)
Record SectionPayload := mkSectionPayload {
  sp_project_id : Id;
  sp_title : string;
  sp_order_index : Z
}.

Fixpoint number_sections (first : Id) (rows : list SectionPayload) : list SectionRow :=
  match rows with
  | [] => []
  | r :: rows' =>
      mkSection first (sp_project_id r) (sp_order_index r) (sp_title r) None false
      :: number_sections (S first) rows'
  end.

(** One INSERT statement for all rows: the foreign key to [projects] is
    checked for each of them and the statement is all or nothing. *)
Definition insert_sections (rows : list SectionPayload) (st : Store)
    : PgResult unit * Store :=
  if forallb (fun r => has_project st (sp_project_id r)) rows then
    (PgData (),
     mkStore (projects st) (sections st ++ number_sections (next_id st) rows)
             (refinement_history st) (feedback st) (next_id st + length rows))
  else (PgError "violates foreign key constraint", st).

(** [from('projects').update({ status }).eq('id', id)]: no matching row is
    not an error. *)
Definition set_status (id : Id) (status : Status) (st : Store) : Store :=
  mkStore
    (map (fun p => if Nat.eqb (p_id p) id
                   then mkProject (p_id p) (p_user_id p) (p_document_type p)
                                  (p_topic p) status
                   else p) (projects st))
    (sections st) (refinement_history st) (feedback st) (next_id st).

Definition update_project_status (id : Id) (status : Status) (st : Store)
    : PgResult unit * Store :=
  (PgData (), set_status id status st).

(** [from('sections').update({ content }).eq('id', id)] *)
Definition set_content (id : Id) (content : string) (st : Store) : Store :=
  mkStore (projects st)
    (map (fun s => if Nat.eqb (s_id s) id
                   then mkSection (s_id s) (s_project_id s) (s_order_index s)
                                  (s_title s) (Some content) (s_is_generated s)
                   else s) (sections st))
    (refinement_history st) (feedback st) (next_id st).

Definition update_section_content (id : Id) (content : string) (st : Store)
    : PgResult unit * Store :=
  (PgData (), set_content id content st).

(** [from('refinement_history').insert({...})]: [section_id] references
    [sections(id)]. *)
Definition insert_refinement (section_id : Id) (prompt : string)
    (previous_content : option string) (new_content : string) (st : Store)
    : PgResult unit * Store :=
  if has_section st section_id then
    (PgData (),
     mkStore (projects st) (sections st)
       (refinement_history st
          ++ [mkRefinement (next_id st) section_id prompt previous_content new_content])
       (feedback st) (S (next_id st)))
  else (PgError "violates foreign key constraint", st).

(** The payload of [from('feedback').upsert({...})].  A column that the
    object literal does not mention is [None] here. *)
Record FeedbackPayload := mkFeedbackPayload {
  fp_id : option Id;
  fp_section_id : Id;
  fp_is_liked : option bool;
  fp_comment : option string
}.

Definition merge_feedback (pl : FeedbackPayload) (row : FeedbackRow) : FeedbackRow :=
  mkFeedback (f_id row) (fp_section_id pl)
    (match fp_is_liked pl with Some b => Some b | None => f_is_liked row end)
    (match fp_comment pl with Some c => Some c | None => f_comment row end).

(** [upsert] without an [onConflict] option is INSERT ... ON CONFLICT on
    the primary key, the only unique key of the [feedback] table: a
    payload whose [id] names an existing row updates the columns it
    supplies, any other payload inserts a row. *)
Definition upsert_feedback (pl : FeedbackPayload) (st : Store)
    : PgResult unit * Store :=
  if negb (has_section st (fp_section_id pl)) then
    (PgError "violates foreign key constraint", st)
  else
    match fp_id pl with
    | Some i =>
        if existsb (fun f => Nat.eqb (f_id f) i) (feedback st) then
          (PgData (),
           mkStore (projects st) (sections st) (refinement_history st)
             (map (fun f => if Nat.eqb (f_id f) i then merge_feedback pl f else f)
                  (feedback st))
             (next_id st))
        else
          (PgData (),
           mkStore (projects st) (sections st) (refinement_history st)
             (feedback st ++ [mkFeedback i (fp_section_id pl) (fp_is_liked pl) (fp_comment pl)])
             (next_id st))
    | None =>
        (PgData (),
         mkStore (projects st) (sections st) (refinement_history st)
           (feedback st
              ++ [mkFeedback (next_id st) (fp_section_id pl) (fp_is_liked pl) (fp_comment pl)])
           (S (next_id st)))
    end.

(** [from('projects').select('*').eq('id', id).single()] *)
Definition select_project (id : Id) (st : Store) : PgResult ProjectRow :=
  match List.filter (fun p => Nat.eqb (p_id p) id) (projects st) with
  | [p] => PgData p
  | _ => PgError "JSON object requested, multiple (or no) rows returned"
  end.

(** ORDER BY order_index, as a stable insertion sort. *)
Fixpoint insert_by_order (s : SectionRow) (l : list SectionRow) : list SectionRow :=
  match l with
  | [] => [s]
  | t :: l' =>
      if Z.leb (s_order_index s) (s_order_index t) then s :: t :: l'
      else t :: insert_by_order s l'
  end.

Definition order_by_order_index (l : list SectionRow) : list SectionRow :=
  foldr insert_by_order [] l.

(** [from('sections').select('*').eq('project_id', id).order('order_index')] *)
Definition select_sections (project_id : Id) (st : Store) : list SectionRow :=
  order_by_order_index
    (List.filter (fun s => Nat.eqb (s_project_id s) project_id) (sections st)).

(** ** Asynchronous computations

    [World] is what an [async] function can change outside its own
    component: the store, the toasts, and (a ghost field) the stores
    committed by the statements that ran, oldest first. *)

Inductive Toast :=
  | toast_success (message : string)
  | toast_error (message : string).

Record World := mkWorld {
  w_store : Store;
  w_commits : list Store;
  w_toasts : list Toast
}.

Definition world_of (st : Store) : World := mkWorld st [] [].

Inductive Outcome (A : Type) :=
  | Returned (value : A)
  | Thrown (error : string).
Arguments Returned {A} value.
Arguments Thrown {A} error.

Definition Async (A : Type) : Type := World -> Outcome A * World.

Definition ret {A} (a : A) : Async A := fun w => (Returned a, w).

Definition bind {A B} (m : Async A) (k : A -> Async B) : Async B :=
  fun w =>
    match m w with
    | (Returned a, w') => k a w'
    | (Thrown e, w') => (Thrown e, w')
    end.

Definition throw {A} (e : string) : Async A := fun w => (Thrown e, w).

(** [try { body } catch (error) { handler }] *)
Definition try_catch {A} (body : Async A) (handler : string -> Async A) : Async A :=
  fun w =>
    match body w with
    | (Returned a, w') => (Returned a, w')
    | (Thrown e, w') => handler e w'
    end.

Declare Scope async_scope.
Delimit Scope async_scope with async.
Notation "x <- m ;; k" := (bind m (fun x => k))
  (at level 100, m at next level, right associativity) : async_scope.
Notation "m ;;; k" := (bind m (fun _ => k))
  (at level 100, right associativity) : async_scope.
Open Scope async_scope.

Definition toast (t : Toast) : Async unit :=
  fun w => (Returned (), mkWorld (w_store w) (w_commits w) (w_toasts w ++ [t])).

(** [await supabase.from(...)...]: the statement runs when the store
    serves the call; otherwise the result carries an error and nothing
    is written.  Either way the promise resolves. *)
Definition db_call {A} (served : bool) (stmt : Store -> PgResult A * Store)
    : Async (PgResult A) :=
  fun w =>
    if served then
      match stmt (w_store w) with
      | (PgData a, st') =>
          (Returned (PgData a), mkWorld st' (w_commits w ++ [st']) (w_toasts w))
      | (PgError m, _) => (Returned (PgError m), w)
      end
    else (Returned (PgError "FetchError: store not reachable"), w).

Definition db_read {A} (served : bool) (query : Store -> PgResult A)
    : Async (PgResult A) :=
  fun w =>
    if served then (Returned (query (w_store w)), w)
    else (Returned (PgError "FetchError: store not reachable"), w).

Definition run {A} (m : Async A) (st : Store) : Outcome A * World := m (world_of st).

Definition final_store {A} (r : Outcome A * World) : Store := w_store (snd r).

(** ** String helpers of the pages *)

(** The white space that [String.prototype.trim] strips, restricted to
    the characters of the 8-bit alphabet used for strings here. *)
Definition is_space (c : ascii) : bool :=
  let n := nat_of_ascii c in
  (n =? 32) || (n =? 9) || (n =? 10) || (n =? 11) || (n =? 12) || (n =? 13) || (n =? 160).

Fixpoint trim_start (s : string) : string :=
  match s with
  | String c s' => if is_space c then trim_start s' else s
  | EmptyString => EmptyString
  end.

Fixpoint string_rev_onto (s acc : string) : string :=
  match s with
  | String c s' => string_rev_onto s' (String c acc)
  | EmptyString => acc
  end.

Definition trim (s : string) : string :=
  string_rev_onto (trim_start (string_rev_onto (trim_start s) "")) "".

(** [!s.trim()]: the empty string is the only falsy string. *)
Definition blank (s : string) : bool :=
  match trim s with EmptyString => true | _ => false end.

(** ** Edge functions called through [supabase.functions.invoke] *)

Inductive FunctionsResponse (A : Type) :=
  | FnData (data : A)
  | FnError (message : string).
Arguments FnData {A} data.
Arguments FnError {A} message.

(** Modelled from the spec: the generate-outline edge function is not
    among the sources.  Section 4.1: input topic string and document
    kind, output an ordered sequence of title strings, no persistence
    side effect; any upstream error surfaces as a failure.  What the
    upstream service answered is the parameter [answer]. *)
Definition generate_outline_function (answer : FunctionsResponse (list string))
    (topic : string) (documentType : DocumentType)
    : Async (FunctionsResponse (list string)) :=
  ret answer.

(** ** The Configure page *)

Record ConfigureState := mkConfigure {
  cf_documentType : DocumentType;
  cf_topic : string;
  cf_sections : list string;
  cf_loading : bool;
  cf_generating : bool
}.

(** [useState('docx')], [useState('')], [useState(['']) ], ... *)
Definition initial_configure : ConfigureState :=
  mkConfigure docx "" [""] false false.

Definition setDocumentType (v : DocumentType) (c : ConfigureState) : ConfigureState :=
  mkConfigure v (cf_topic c) (cf_sections c) (cf_loading c) (cf_generating c).
Definition setTopic (v : string) (c : ConfigureState) : ConfigureState :=
  mkConfigure (cf_documentType c) v (cf_sections c) (cf_loading c) (cf_generating c).
Definition setSections (v : list string) (c : ConfigureState) : ConfigureState :=
  mkConfigure (cf_documentType c) (cf_topic c) v (cf_loading c) (cf_generating c).
Definition setLoading (v : bool) (c : ConfigureState) : ConfigureState :=
  mkConfigure (cf_documentType c) (cf_topic c) (cf_sections c) v (cf_generating c).
Definition setGenerating (v : bool) (c : ConfigureState) : ConfigureState :=
  mkConfigure (cf_documentType c) (cf_topic c) (cf_sections c) (cf_loading c) v.

Definition addSection (c : ConfigureState) : ConfigureState :=
  setSections (cf_sections c ++ [""]) c.

(** [l.filter((_, i) => keep(i))], counting from [i]. *)
Fixpoint filter_index {A} (keep : nat -> bool) (i : nat) (l : list A) : list A :=
  match l with
  | [] => []
  | x :: l' =>
      if keep i then x :: filter_index keep (S i) l' else filter_index keep (S i) l'
  end.

Definition removeSection (index : nat) (c : ConfigureState) : ConfigureState :=
  if 1 <? length (cf_sections c) then
    setSections (filter_index (fun i => negb (i =? index)) 0 (cf_sections c)) c
  else c.

(** [newSections[index] = value].  The page passes the index of a
    rendered row, which is in range; past the end a JS array grows, the
    slots in between are rendered here as empty titles. *)
Definition updateSection (index : nat) (value : string) (c : ConfigureState)
    : ConfigureState :=
  if index <? length (cf_sections c) then
    setSections (<[index := value]> (cf_sections c)) c
  else
    setSections (cf_sections c ++ replicate (index - length (cf_sections c)) "" ++ [value]) c.

Definition generateOutline (answer : FunctionsResponse (list string))
    (c : ConfigureState) : Async ConfigureState :=
  if blank (cf_topic c) then
    toast (toast_error "Please enter a topic first") ;;; ret c
  else
    (* setGenerating(true) ... finally setGenerating(false) *)
    c' <- try_catch
            (r <- generate_outline_function answer (cf_topic c) (cf_documentType c) ;;
             match r with
             | FnError m => throw m
             | FnData outline =>
                 toast (toast_success "Outline generated successfully!") ;;;
                 ret (setSections outline c)
             end)
            (fun _ => toast (toast_error "Failed to generate outline") ;;; ret c) ;;
    ret (setGenerating false c').

Record SubmitEnv := mkSubmitEnv {
  se_project_served : bool;
  se_sections_served : bool
}.

(** The rows of [sections.map((title, index) => ({...}))]. *)
Definition sectionsData (project_id : Id) (titles : list string) : list SectionPayload :=
  imap (fun index title => mkSectionPayload project_id (trim title) (Z.of_nat index)) titles.

(** Returns the page state and, when the page navigated to the editor,
    the id of the project created. *)
Definition handleSubmit (user : option Id) (env : SubmitEnv) (c : ConfigureState)
    : Async (ConfigureState * option Id) :=
  if blank (cf_topic c) || existsb blank (cf_sections c) then
    toast (toast_error "Please fill in all fields") ;;; ret (c, None)
  else
    (* setLoading(true) ... finally setLoading(false) *)
    created <- try_catch
      (match user with
       | None =>
           toast (toast_error "You must be logged in to create a project") ;;;
           ret None
       | Some user_id =>
           pr <- db_call (se_project_served env)
                   (insert_project user_id (cf_documentType c) (trim (cf_topic c)) draft) ;;
           match pr with
           | PgError m => throw m
           | PgData project =>
               sr <- db_call (se_sections_served env)
                       (insert_sections (sectionsData (p_id project) (cf_sections c))) ;;
               match sr with
               | PgError m => throw m
               | PgData _ =>
                   toast (toast_success "Project created successfully!") ;;;
                   ret (Some (p_id project))
               end
           end
       end)
      (fun _ => toast (toast_error "Failed to create project") ;;; ret None) ;;
    ret (setLoading false c, created).

(** ** The refine-content edge function *)

Inductive Method := OPTIONS | POST.

(** [{ sectionId, prompt, currentContent, title }] *)
Record RefineRequest := mkRefineRequest {
  rq_sectionId : Id;
  rq_prompt : string;
  rq_currentContent : option string;
  rq_title : string
}.

(** What the AI gateway did with the chat-completion request built from
    the title, the current content and the prompt. *)
Inductive AiReply :=
  | AiFetchFailed
  | AiNotOk (statusText : string)
  | AiMalformed
  | AiOk (content : string).

Record RefineEnv := mkRefineEnv {
  re_api_key : option string;
  re_ai : AiReply;
  re_history_served : bool;
  re_section_served : bool
}.

Inductive RefineResponse :=
  | RespPreflight                       (* 200, body 'ok' *)
  | RespSuccess (content : string)      (* 200, { success: true, content } *)
  | RespFailure (error : string).       (* 500, { error } *)

(** [body = None] is a request whose body is not JSON. *)
Definition refine_content (env : RefineEnv) (method : Method)
    (body : option RefineRequest) : Async RefineResponse :=
  match method with
  | OPTIONS => ret RespPreflight
  | POST =>
      try_catch
        (match body with
         | None => throw "Unexpected end of JSON input"
         | Some rq =>
             match re_api_key env with
             | None | Some EmptyString => throw "LOVABLE_API_KEY not configured"
             | Some _ =>
                 match re_ai env with
                 | AiFetchFailed => throw "error sending request"
                 | AiNotOk statusText => throw ("AI API error: " +:+ statusText)
                 | AiMalformed => throw "Cannot read properties of undefined"
                 | AiOk refinedContent =>
                     db_call (re_history_served env)
                       (insert_refinement (rq_sectionId rq) (rq_prompt rq)
                          (rq_currentContent rq) refinedContent) ;;;
                     db_call (re_section_served env)
                       (update_section_content (rq_sectionId rq) refinedContent) ;;;
                     ret (RespSuccess refinedContent)
                 end
             end
         end)
        (fun errorMessage => ret (RespFailure errorMessage))
  end.

(** [supabase.functions.invoke('refine-content', { body })]: the request
    reaches the function or it does not; a non-2xx answer is an error. *)
Record RefineCallEnv := mkRefineCallEnv {
  rc_reached : bool;
  rc_function : RefineEnv
}.

Definition invoke_refine_content (env : RefineCallEnv) (rq : RefineRequest)
    : Async (FunctionsResponse string) :=
  if rc_reached env then
    resp <- refine_content (rc_function env) POST (Some rq) ;;
    match resp with
    | RespSuccess content => ret (FnData content)
    | RespPreflight => ret (FnData "ok")
    | RespFailure _ => ret (FnError "Edge Function returned a non-2xx status code")
    end
  else ret (FnError "Failed to send a request to the Edge Function").

(** ** The generate-content edge function *)

Inductive GenerateReply :=
  | GenFailed (message : string)
  | GenSucceeded (content_of : Id -> string).

Definition mark_generated (listed : list (Id * string)) (content_of : Id -> string)
    (st : Store) : Store :=
  mkStore (projects st)
    (map (fun s => if existsb (fun it => Nat.eqb (fst it) (s_id s)) listed
                   then mkSection (s_id s) (s_project_id s) (s_order_index s)
                                  (s_title s) (Some (content_of (s_id s))) true
                   else s) (sections st))
    (refinement_history st) (feedback st) (next_id st).

Definition set_generated (listed : list (Id * string)) (content_of : Id -> string)
    (st : Store) : PgResult unit * Store :=
  (PgData (), mark_generated listed content_of st).

(** Modelled from the spec: the generate-content edge function is not
    among the sources.  Section 4.2: input project id, topic, document
    kind and the ordered list of (section id, title) pairs; upon success
    every listed section acquires generated content and its generated
    flag is set; a failure surfaces as an error.  The two status writes
    that section 4.2 also lists are made by the page, in
    [generateAllContent] below.  What the upstream service answered is
    the parameter [reply]. *)
Definition generate_content_function (reply : GenerateReply) (projectId : Id)
    (topic : string) (documentType : DocumentType) (listed : list (Id * string))
    : Async (FunctionsResponse bool) :=
  match reply with
  | GenFailed m => ret (FnError m)
  | GenSucceeded content_of =>
      db_call true (set_generated listed content_of) ;;; ret (FnData true)
  end.

(** ** The Editor page *)

Record EditorState := mkEditor {
  ed_project : option ProjectRow;
  ed_sections : list SectionRow;
  ed_loading : bool;
  ed_generating : bool;
  ed_refining : option Id;
  ed_refinementPrompts : gmap nat string;
  ed_comments : gmap nat string
}.

(** [useState(null)], [useState([])], [useState(true)], ... *)
Definition initial_editor : EditorState :=
  mkEditor None [] true false None ∅ ∅.

Definition with_project (v : option ProjectRow) (e : EditorState) : EditorState :=
  mkEditor v (ed_sections e) (ed_loading e) (ed_generating e) (ed_refining e)
           (ed_refinementPrompts e) (ed_comments e).
Definition with_sections (v : list SectionRow) (e : EditorState) : EditorState :=
  mkEditor (ed_project e) v (ed_loading e) (ed_generating e) (ed_refining e)
           (ed_refinementPrompts e) (ed_comments e).
Definition with_loading (v : bool) (e : EditorState) : EditorState :=
  mkEditor (ed_project e) (ed_sections e) v (ed_generating e) (ed_refining e)
           (ed_refinementPrompts e) (ed_comments e).
Definition with_generating (v : bool) (e : EditorState) : EditorState :=
  mkEditor (ed_project e) (ed_sections e) (ed_loading e) v (ed_refining e)
           (ed_refinementPrompts e) (ed_comments e).
Definition with_refining (v : option Id) (e : EditorState) : EditorState :=
  mkEditor (ed_project e) (ed_sections e) (ed_loading e) (ed_generating e) v
           (ed_refinementPrompts e) (ed_comments e).
Definition with_refinementPrompts (v : gmap nat string) (e : EditorState) : EditorState :=
  mkEditor (ed_project e) (ed_sections e) (ed_loading e) (ed_generating e)
           (ed_refining e) v (ed_comments e).
Definition with_comments (v : gmap nat string) (e : EditorState) : EditorState :=
  mkEditor (ed_project e) (ed_sections e) (ed_loading e) (ed_generating e)
           (ed_refining e) (ed_refinementPrompts e) v.

Record LoadEnv := mkLoadEnv {
  le_project_served : bool;
  le_sections_served : bool
}.

(** The [throw] of each failed query lands in the [catch] of the same
    function, so both are written in place; [finally] ends the loading. *)
Definition loadProject (env : LoadEnv) (id : Id) (e : EditorState) : Async EditorState :=
  pr <- db_read (le_project_served env) (select_project id) ;;
  match pr with
  | PgError _ =>
      toast (toast_error "Failed to load project") ;;; ret (with_loading false e)
  | PgData projectData =>
      let e1 := with_project (Some projectData) e in
      sr <- db_read (le_sections_served env) (fun st => PgData (select_sections id st)) ;;
      match sr with
      | PgError _ =>
          toast (toast_error "Failed to load project") ;;; ret (with_loading false e1)
      | PgData sectionsData => ret (with_loading false (with_sections sectionsData e1))
      end
  end.

Record GenerateEnv := mkGenerateEnv {
  ge_generating_served : bool;    (* update({ status: 'generating' }) *)
  ge_reached : bool;              (* the invoke reached the edge function *)
  ge_reply : GenerateReply;
  ge_final_served : bool;         (* update({ status: 'completed' | 'draft' }) *)
  ge_reload : LoadEnv
}.

Definition invoke_generate_content (env : GenerateEnv) (projectId : Id)
    (topic : string) (documentType : DocumentType) (listed : list (Id * string))
    : Async (FunctionsResponse bool) :=
  if ge_reached env then
    generate_content_function (ge_reply env) projectId topic documentType listed
  else ret (FnError "Failed to send a request to the Edge Function").

Definition generateAllContent (env : GenerateEnv) (id : Id) (e : EditorState)
    : Async EditorState :=
  match ed_project e with
  | None => ret e
  | Some project =>
      (* setGenerating(true) ... finally setGenerating(false) *)
      e' <- try_catch
        (db_call (ge_generating_served env) (update_project_status id generating) ;;;
         r <- invoke_generate_content env id (p_topic project) (p_document_type project)
                (map (fun s => (s_id s, s_title s)) (ed_sections e)) ;;
         match r with
         | FnError m => throw m
         | FnData _ =>
             db_call (ge_final_served env) (update_project_status id completed) ;;;
             e2 <- loadProject (ge_reload env) id e ;;
             toast (toast_success "Content generated successfully!") ;;;
             ret e2
         end)
        (fun _ =>
           toast (toast_error "Failed to generate content") ;;;
           db_call (ge_final_served env) (update_project_status id draft) ;;;
           ret e) ;;
      ret (with_generating false e')
  end.

Record RefineSectionEnv := mkRefineSectionEnv {
  rs_call : RefineCallEnv;
  rs_reload : LoadEnv
}.

Definition refineSection (env : RefineSectionEnv) (id sectionId : Id)
    (e : EditorState) : Async EditorState :=
  match ed_refinementPrompts e !! sectionId with
  | None => toast (toast_error "Please enter a refinement prompt") ;;; ret e
  | Some prompt =>
      if blank prompt then
        toast (toast_error "Please enter a refinement prompt") ;;; ret e
      else
        (* setRefining(sectionId) ... finally setRefining(null) *)
        e' <- try_catch
          (match List.find (fun s => Nat.eqb (s_id s) sectionId) (ed_sections e) with
           | None => ret e
           | Some section =>
               r <- invoke_refine_content (rs_call env)
                      (mkRefineRequest sectionId prompt (s_content section)
                                       (s_title section)) ;;
               match r with
               | FnError m => throw m
               | FnData _ =>
                   e2 <- loadProject (rs_reload env) id e ;;
                   toast (toast_success "Section refined successfully!") ;;;
                   ret (with_refinementPrompts
                          (<[sectionId := ""]> (ed_refinementPrompts e)) e2)
               end
           end)
          (fun _ => toast (toast_error "Failed to refine section") ;;; ret e) ;;
        ret (with_refining None e')
  end.

(** The result of the upsert is not looked at: the toast is shown also
    when the result carries an error. *)
Definition handleFeedback (served : bool) (sectionId : Id) (isLiked : bool)
    : Async unit :=
  db_call served (upsert_feedback (mkFeedbackPayload None sectionId (Some isLiked) None)) ;;;
  toast (toast_success "Feedback recorded").

Definition saveComment (served : bool) (sectionId : Id) (e : EditorState)
    : Async unit :=
  match ed_comments e !! sectionId with
  | None => ret ()
  | Some comment =>
      if blank comment then ret ()
      else
        db_call served
          (upsert_feedback (mkFeedbackPayload None sectionId None (Some (trim comment)))) ;;;
        toast (toast_success "Comment saved")
  end.

(** ** Export: the objects handed to the docx and pptxgenjs builders *)

Inductive HeadingLevel := HEADING_1 | HEADING_2.

(** [new Paragraph({ text, heading })] or [new Paragraph({ children })],
    a child being [new TextRun(text)]. *)
Record Paragraph := mkParagraph {
  para_text : option string;
  para_heading : option HeadingLevel;
  para_children : list string
}.

(** [new Document({ sections: [{ properties: {}, children }] })] *)
Record Document := mkDocument {
  doc_children : list Paragraph
}.

Record TextOptions := mkTextOptions {
  to_x : Q;
  to_y : Q;
  to_w : string;
  to_h : Q;
  to_fontSize : nat;
  to_bold : bool;
  to_align : option string
}.

(** A slide is the list of its [addText(text, options)] calls. *)
Record Slide := mkSlide {
  slide_texts : list (string * TextOptions)
}.

Inductive ExportFile :=
  | DocxFile (fileName : string) (doc : Document)
  | PptxFile (fileName : string) (slides : list Slide).

(** [section.content || ''] *)
Definition content_or_empty (content : option string) : string :=
  match content with
  | Some s => s
  | None => ""
  end.

Definition title_options : TextOptions :=
  mkTextOptions (1 # 2) 2 "90%" (3 # 2) 44 true (Some "center").
Definition slide_title_options : TextOptions :=
  mkTextOptions (1 # 2) (1 # 2) "90%" 1 32 true None.
Definition slide_body_options : TextOptions :=
  mkTextOptions (1 # 2) (3 # 2) "90%" 4 16 false None.

Definition docx_children (topic : string) (secs : list SectionRow) : list Paragraph :=
  mkParagraph (Some topic) (Some HEADING_1) []
  :: flat_map (fun section =>
       [ mkParagraph (Some (s_title section)) (Some HEADING_2) [];
         mkParagraph None None [content_or_empty (s_content section)] ]) secs.

Definition pptx_slides (topic : string) (secs : list SectionRow) : list Slide :=
  mkSlide [(topic, title_options)]
  :: map (fun section =>
       mkSlide [ (s_title section, slide_title_options);
                 (content_or_empty (s_content section), slide_body_options) ]) secs.

(** Returns the file passed to [saveAs] / [writeFile]. *)
Definition exportDocument (e : EditorState) : Async (option ExportFile) :=
  match ed_project e with
  | None => ret None
  | Some project =>
      match p_document_type project with
      | docx =>
          toast (toast_success "Document exported successfully!") ;;;
          ret (Some (DocxFile (p_topic project +:+ ".docx")
                       (mkDocument (docx_children (p_topic project) (ed_sections e)))))
      | pptx =>
          toast (toast_success "Document exported successfully!") ;;;
          ret (Some (PptxFile (p_topic project +:+ ".pptx")
                       (pptx_slides (p_topic project) (ed_sections e))))
      end
  end.

(** ** What the Editor page renders *)

(** [section.content] is truthy: neither null nor the empty string. *)
Definition truthy (content : option string) : bool :=
  match content with
  | Some (String _ _) => true
  | _ => false
  end.

(** One card of [sections.map((section, index) => ...)]. *)
Record SectionCard := mkCard {
  card_number : nat;             (* {index + 1} *)
  card_title : string;           (* {section.title} *)
  card_text : string;            (* section.content || 'Content will be generated...' *)
  card_controls : bool;          (* {section.content && (...)} *)
  card_refine_disabled : bool;   (* refining === section.id *)
  card_prompt : string;          (* refinementPrompts[section.id] || '' *)
  card_comment : string          (* comments[section.id] || '' *)
}.

Inductive EditorView :=
  | ViewLoading
  | ViewPage (heading : option string)
             (generate_shown generate_disabled export_shown : bool)
             (cards : list SectionCard).

Definition render_card (e : EditorState) (index : nat) (section : SectionRow)
    : SectionCard :=
  mkCard (index + 1) (s_title section)
    (if truthy (s_content section) then content_or_empty (s_content section)
     else "Content will be generated...")
    (truthy (s_content section))
    (match ed_refining e with
     | Some r => Nat.eqb r (s_id section)
     | None => false
     end)
    (default "" (ed_refinementPrompts e !! s_id section))
    (default "" (ed_comments e !! s_id section)).

Definition render_editor (e : EditorState) : EditorView :=
  if ed_loading e then ViewLoading
  else
    ViewPage (option_map p_topic (ed_project e))
      (negb (existsb s_is_generated (ed_sections e)))
      (ed_generating e)
      (existsb (fun s => truthy (s_content s)) (ed_sections e))
      (imap (render_card e) (ed_sections e)).

(** A click on the Refine button of the card at [index]: the handler
    runs if the button is rendered and enabled. *)
Definition click_refine (env : RefineSectionEnv) (id : Id) (index : nat)
    (e : EditorState) : Async EditorState :=
  match render_editor e with
  | ViewLoading => ret e
  | ViewPage _ _ _ _ cards =>
      match cards !! index, ed_sections e !! index with
      | Some card, Some section =>
          if card_controls card && negb (card_refine_disabled card)
          then refineSection env id (s_id section) e
          else ret e
      | _, _ => ret e
      end
  end.

(** A click on the Export button. *)
Definition click_export (e : EditorState) : Async (option ExportFile) :=
  match render_editor e with
  | ViewPage _ _ _ true _ => exportDocument e
  | _ => ret None
  end.

(** ** The rest of the schema: cascades and row level security *)

(** [DELETE FROM projects WHERE id = ...].  [sections.project_id],
    [refinement_history.section_id] and [feedback.section_id] are
    declared ON DELETE CASCADE, so the sections of the project go with
    it, and with each section its audit rows and its feedback rows. *)
Definition delete_project (id : Id) (st : Store) : PgResult unit * Store :=
  let gone := fun section_id : Id =>
    existsb (fun s => Nat.eqb (s_id s) section_id && Nat.eqb (s_project_id s) id)
            (sections st) in
  (PgData (),
   mkStore
     (List.filter (fun p => negb (Nat.eqb (p_id p) id)) (projects st))
     (List.filter (fun s => negb (Nat.eqb (s_project_id s) id)) (sections st))
     (List.filter (fun r => negb (gone (r_section_id r))) (refinement_history st))
     (List.filter (fun f => negb (gone (f_section_id f))) (feedback st))
     (next_id st)).

Inductive Command := SELECT | INSERT | UPDATE | DELETE.

(** [EXISTS (SELECT 1 FROM projects WHERE projects.id = ... AND
    projects.user_id = auth.uid())] *)
Definition owns_project (st : Store) (uid project_id : Id) : bool :=
  existsb (fun p => Nat.eqb (p_id p) project_id && Nat.eqb (p_user_id p) uid)
          (projects st).

(** [EXISTS (SELECT 1 FROM sections JOIN projects ON projects.id =
    sections.project_id WHERE sections.id = ... AND projects.user_id =
    auth.uid())] *)
Definition owns_section (st : Store) (uid section_id : Id) : bool :=
  existsb (fun s => Nat.eqb (s_id s) section_id && owns_project st uid (s_project_id s))
          (sections st).

(** The policies of each table.  Row level security is enabled on the
    four tables, so a command without a policy is refused. *)
Definition policy_projects (cmd : Command) (uid : Id) (p : ProjectRow) : bool :=
  Nat.eqb uid (p_user_id p).

Definition policy_sections (cmd : Command) (st : Store) (uid : Id) (s : SectionRow)
    : bool :=
  owns_project st uid (s_project_id s).

Definition policy_refinement_history (cmd : Command) (st : Store) (uid : Id)
    (r : RefinementRow) : bool :=
  match cmd with
  | SELECT | INSERT => owns_section st uid (r_section_id r)
  | UPDATE | DELETE => false
  end.

Definition policy_feedback (cmd : Command) (st : Store) (uid : Id) (f : FeedbackRow)
    : bool :=
  match cmd with
  | SELECT | INSERT | UPDATE => owns_section st uid (f_section_id f)
  | DELETE => false
  end.

(** * Vocabulary of the properties *)

(** ** Reading an exported file back *)

(** The texts of the paragraphs that carry the heading [level]. *)
Definition heading_texts (level : HeadingLevel) (ps : list Paragraph) : list (option string) :=
  map para_text
    (List.filter (fun p => match para_heading p, level with
                           | Some HEADING_1, HEADING_1 | Some HEADING_2, HEADING_2 => true
                           | _, _ => false
                           end) ps).

(** The paragraphs read as a sequence of (sub-heading, body) pairs;
    [None] when they are anything else. *)
Fixpoint docx_entries (ps : list Paragraph) : option (list (string * string)) :=
  match ps with
  | [] => Some []
  | mkParagraph (Some title) (Some HEADING_2) []
    :: mkParagraph None None [body] :: rest =>
      match docx_entries rest with
      | Some entries => Some ((title, body) :: entries)
      | None => None
      end
  | _ => None
  end.

(** The slides read as a sequence of (title box, body box) pairs. *)
Fixpoint pptx_entries (slides : list Slide) : option (list (string * string)) :=
  match slides with
  | [] => Some []
  | mkSlide [(title, _); (body, _)] :: rest =>
      match pptx_entries rest with
      | Some entries => Some ((title, body) :: entries)
      | None => None
      end
  | _ => None
  end.

(** What a section contributes to an export: its title and its content,
    the empty string standing for a null content. *)
Definition rendered (s : SectionRow) : string * string :=
  (s_title s, match s_content s with Some c => c | None => "" end).

(** [a] may come before [b] in a list ordered by order position. *)
Definition by_order_index (a b : SectionRow) : Prop :=
  (s_order_index a <= s_order_index b)%Z.

(** ** Reading the store *)

(** The status of the project [id], if the store has it. *)
Definition status_of (st : Store) (id : Id) : option Status :=
  option_map p_status (List.find (fun p => Nat.eqb (p_id p) id) (projects st)).

(** The stored content (possibly null) of the section [sectionId]. *)
Definition content_of (st : Store) (sectionId : Id) : option (option string) :=
  option_map s_content (List.find (fun s => Nat.eqb (s_id s) sectionId) (sections st)).

(** The invoke of generate-content came back with an error. *)
Definition upstream_fails (env : GenerateEnv) : bool :=
  negb (ge_reached env)
  || match ge_reply env with GenFailed _ => true | GenSucceeded _ => false end.

(** The statuses a project went through: in the store a computation
    started from and in each store it committed. *)
Definition status_trace (id : Id) (st : Store) (w : World) : list (option Status) :=
  map (fun st' => status_of st' id) (st :: w_commits w).

(** Going from [a] to [b] is a transition when they differ. *)
Definition step (a b : Status) : list (Status * Status) :=
  if decide (a = b) then [] else [(a, b)].

(** The changes of status along a trace. *)
Fixpoint transitions (l : list (option Status)) : list (Status * Status) :=
  match l with
  | [] => []
  | a :: rest =>
      match a, rest with
      | Some x, Some y :: _ => step x y ++ transitions rest
      | _, _ => transitions rest
      end
  end.

(** draft -> generating, generating -> completed, generating -> draft. *)
Definition allowed (t : Status * Status) : bool :=
  match t with
  | (draft, generating) | (generating, completed) | (generating, draft) => true
  | _ => false
  end.

(** ** Invariants of computations *)

(** The computation [m] takes a world that satisfies [I] to a world
    that satisfies [I]. *)
Definition keeps {A} (I : World -> Prop) (m : Async A) : Prop :=
  forall w, I w -> I (snd (m w)).

(** A statement keeps [I] when committing its result does. *)
Definition stmt_keeps {A} (I : World -> Prop) (stmt : Store -> PgResult A * Store) : Prop :=
  forall w a st',
    I w -> stmt (w_store w) = (PgData a, st') ->
    I (mkWorld st' (w_commits w ++ [st']) (w_toasts w)).

(** A computation that returns (rather than throws) from every world. *)
Definition returns {A} (m : Async A) : Prop :=
  forall w, exists a, fst (m w) = Returned a.

(** ** Runs of the pages and of the endpoint *)

(** [apiKey] is truthy. *)
Definition api_key_configured (env : RefineEnv) : bool :=
  match re_api_key env with
  | Some (String _ _) => true
  | _ => false
  end.

(** The store after a refine call whose two statements were applied. *)
Definition refined (rq : RefineRequest) (content : string) (st : Store) : Store :=
  set_content (rq_sectionId rq) content
    (snd (insert_refinement (rq_sectionId rq) (rq_prompt rq)
            (rq_currentContent rq) content st)).

(** The project a submit created, if it navigated to the editor. *)
Definition created {A} (r : Outcome (A * option Id) * World) : option Id :=
  match fst r with
  | Returned (_, c) => c
  | Thrown _ => None
  end.

(** The store after a submit whose two inserts were applied. *)
Definition submitted (user_id : Id) (c : ConfigureState) (st : Store) : Store :=
  mkStore
    (projects st
       ++ [mkProject (next_id st) user_id (cf_documentType c) (trim (cf_topic c)) draft])
    (sections st
       ++ number_sections (S (next_id st)) (sectionsData (next_id st) (cf_sections c)))
    (refinement_history st) (feedback st)
    (S (next_id st) + length (sectionsData (next_id st) (cf_sections c))).

(** The submit passes the validation of the form. *)
Definition submit_valid (c : ConfigureState) : bool :=
  negb (blank (cf_topic c) || existsb blank (cf_sections c)).

(** Everything that can be done to the store: the actions of the two
    pages, each with the page state it is run in, and a direct request
    to the refine-content endpoint. *)
Inductive Op :=
  | OpSubmit (user : option Id) (env : SubmitEnv) (c : ConfigureState)
  | OpOutline (answer : FunctionsResponse (list string)) (c : ConfigureState)
  | OpLoad (env : LoadEnv) (id : Id) (e : EditorState)
  | OpGenerateAll (env : GenerateEnv) (id : Id) (e : EditorState)
  | OpRefine (env : RefineSectionEnv) (id sectionId : Id) (e : EditorState)
  | OpRefineEndpoint (env : RefineEnv) (method : Method) (body : option RefineRequest)
  | OpFeedback (served : bool) (sectionId : Id) (isLiked : bool)
  | OpComment (served : bool) (sectionId : Id) (e : EditorState)
  | OpExport (e : EditorState).

Definition exec (op : Op) : Async unit :=
  match op with
  | OpSubmit user env c => handleSubmit user env c ;;; ret ()
  | OpOutline answer c => generateOutline answer c ;;; ret ()
  | OpLoad env id e => loadProject env id e ;;; ret ()
  | OpGenerateAll env id e => generateAllContent env id e ;;; ret ()
  | OpRefine env id sectionId e => refineSection env id sectionId e ;;; ret ()
  | OpRefineEndpoint env method body => refine_content env method body ;;; ret ()
  | OpFeedback served sectionId isLiked => handleFeedback served sectionId isLiked
  | OpComment served sectionId e => saveComment served sectionId e
  | OpExport e => exportDocument e ;;; ret ()
  end.

(** A sequence of operations, one after the other. *)
Definition exec_all (ops : list Op) : Async unit :=
  foldr (fun op rest => exec op ;;; rest) (ret ()) ops.

(** ** Relations between stores *)

(** A section row as far as ordering goes: its id and order position. *)
Definition position (s : SectionRow) : Id * Z := (s_id s, s_order_index s).

(** The section rows of [st] are still in [st'], in the same order and
    with the same order positions; rows may have been added after them. *)
Definition keeps_positions (st st' : Store) : Prop :=
  exists added, map position (sections st') = map position (sections st) ++ added.

(** The statuses that a run of the bulk generation takes a project
    through, from the status [s0] it starts in. *)
Definition run_transitions (env : GenerateEnv) (s0 : Status) : list (Status * Status) :=
  (if ge_generating_served env then step s0 generating else [])
  ++ (if ge_final_served env
      then step (if ge_generating_served env then generating else s0)
                (if upstream_fails env then draft else completed)
      else []).

(** Going from [a] to [b] is no change of status for the project [id]:
    it did not exist in [a], or it has the same status in [b]. *)
Definition quiet (id : Id) (a b : Store) : Prop :=
  status_of a id = None \/ status_of b id = status_of a id.

(** The worlds reached from [st0] without a transition of the project
    [id]; the store is the last one committed. *)
Definition no_transition (id : Id) (st0 : Store) : World -> Prop :=
  fun w =>
    w_store w = List.last (w_commits w) st0 /\
    transitions (status_trace id st0 w) = [].

(** The operation is a run of the bulk generation. *)
Definition is_generate (op : Op) : bool :=
  match op with
  | OpGenerateAll _ _ _ => true
  | _ => false
  end.

(** A statement respects a relation between stores when it takes every
    store to a related one. *)
Definition respects (R : Store -> Store -> Prop) {A}
    (stmt : Store -> PgResult A * Store) : Prop :=
  forall st, R st (snd (stmt st)).

(** The worlds whose store is related to [st0]. *)
Definition related (R : Store -> Store -> Prop) (st0 : Store) : World -> Prop :=
  fun w => R st0 (w_store w).

(** ** Vocabulary of the further properties *)

(** The string starts with a character that [trim] strips. *)
Definition first_is_space (s : string) : bool :=
  match s with
  | String c _ => is_space c
  | EmptyString => false
  end.

(** The string ends with a character that [trim] strips. *)
Definition last_is_space (s : string) : bool :=
  first_is_space (string_rev_onto s "").

(** The audit rows of [st] are the first audit rows of [st'], unchanged. *)
Definition history_grows (st st' : Store) : Prop :=
  exists added, refinement_history st' = refinement_history st ++ added.

(** The feedback rows of [st] are the first feedback rows of [st'],
    unchanged. *)
Definition feedback_grows (st st' : Store) : Prop :=
  exists added, feedback st' = feedback st ++ added.

(** A project row without its status. *)
Definition project_core (p : ProjectRow) : Id * Id * DocumentType * string :=
  (p_id p, p_user_id p, p_document_type p, p_topic p).

(** The project rows of [st] are the first project rows of [st'], the
    same but for their status. *)
Definition projects_grow (st st' : Store) : Prop :=
  exists added, map project_core (projects st') = map project_core (projects st) ++ added.



(** Every reference from a row to another table finds its row: the
    FOREIGN KEY constraints of the schema. *)
Definition fk_ok (st : Store) : Prop :=
  Forall (fun s => has_project st (s_project_id s) = true) (sections st) /\
  Forall (fun r => has_section st (r_section_id r) = true) (refinement_history st) /\
  Forall (fun f => has_section st (f_section_id f) = true) (feedback st).

(** [s'] is [s] with, if [s] is the section [sectionId], possibly another
    content. *)
Definition refined_row (sectionId : Id) (s s' : SectionRow) : Prop :=
  s_id s' = s_id s /\ s_project_id s' = s_project_id s /\
  s_order_index s' = s_order_index s /\ s_title s' = s_title s /\
  s_is_generated s' = s_is_generated s /\
  (s_id s <> sectionId -> s' = s).

(** The bodies of the sections in an exported file. *)
Definition export_bodies (file : ExportFile) : option (list string) :=
  match file with
  | DocxFile _ doc =>
      option_map (map snd) (docx_entries (tl (doc_children doc)))
  | PptxFile _ slides => option_map (map snd) (pptx_entries (tl slides))
  end.

(** The PRIMARY KEY constraints of [projects] and [sections]. *)
Definition pk_ok (st : Store) : Prop :=
  NoDup (map p_id (projects st)) /\ NoDup (map s_id (sections st)).

(** * Properties *)

(** ** Exported files and the order of the loaded sections *)

Lemma docx_entries_sections (secs : list SectionRow) :
  docx_entries
    (flat_map (fun section =>
       [ mkParagraph (Some (s_title section)) (Some HEADING_2) [];
         mkParagraph None None [content_or_empty (s_content section)] ]) secs)
  = Some (map rendered secs).
Proof.
  induction secs as [|s secs IH]; [reflexivity|].
  cbn [flat_map app docx_entries]. rewrite IH. reflexivity.
Qed.

Lemma pptx_entries_sections (secs : list SectionRow) :
  pptx_entries
    (map (fun section =>
       mkSlide [ (s_title section, slide_title_options);
                 (content_or_empty (s_content section), slide_body_options) ]) secs)
  = Some (map rendered secs).
Proof.
  induction secs as [|s secs IH]; [reflexivity|].
  cbn [map pptx_entries]. rewrite IH. reflexivity.
Qed.

Lemma heading1_sections (secs : list SectionRow) :
  heading_texts HEADING_1
    (flat_map (fun section =>
       [ mkParagraph (Some (s_title section)) (Some HEADING_2) [];
         mkParagraph None None [content_or_empty (s_content section)] ]) secs)
  = [].
Proof.
  induction secs as [|s secs IH]; [reflexivity|].
  cbn [flat_map app]. exact IH.
Qed.

Lemma insert_by_order_sorted (s : SectionRow) (l : list SectionRow) :
  StronglySorted by_order_index l ->
  StronglySorted by_order_index (insert_by_order s l).
Proof.
  induction 1 as [|t l Hl IH Ht]; cbn [insert_by_order].
  - constructor; constructor.
  - destruct (Z.leb_spec (s_order_index s) (s_order_index t)) as [Hle|Hgt].
    + constructor; [constructor; assumption|].
      constructor; [exact Hle|].
      eapply Forall_impl; [exact Ht|].
      intros u Hu. unfold by_order_index in *. lia.
    + constructor; [exact IH|].
      assert (Hin : forall u, In u (insert_by_order s l) -> u = s \/ In u l).
      { clear. induction l as [|v l IHl]; cbn [insert_by_order]; intros u Hu.
        - destruct Hu as [->|[]]. now left.
        - destruct (Z.leb _ _).
          + destruct Hu as [->|Hu]; [now left | now right].
          + destruct Hu as [->|Hu]; [right; now left|].
            destruct (IHl _ Hu) as [->|Hin]; [now left | right; now right]. }
      apply List.Forall_forall. intros u Hu.
      destruct (Hin _ Hu) as [->|Hul].
      * unfold by_order_index. lia.
      * rewrite List.Forall_forall in Ht. apply Ht, Hul.
Qed.

Lemma select_sections_sorted (id : Id) (st : Store) :
  StronglySorted by_order_index (select_sections id st).
Proof.
  unfold select_sections, order_by_order_index.
  induction (List.filter _ (sections st)) as [|s l IH]; cbn [foldr].
  - constructor.
  - apply insert_by_order_sorted, IH.
Qed.

(** ** C1: what an export contains *)

(** The scenario of the specification: three sections A, B, C without
    content under the topic "EV market analysis". *)
Example export_ev_market_analysis :
  fst (exportDocument
         (mkEditor (Some (mkProject 0 7 docx "EV market analysis" draft))
            [mkSection 1 0 0 "A" None false; mkSection 2 0 1 "B" None false;
             mkSection 3 0 2 "C" None false] false false None ∅ ∅)
         (world_of empty_store))
  = Returned (Some (DocxFile "EV market analysis.docx"
      (mkDocument
        [ mkParagraph (Some "EV market analysis") (Some HEADING_1) [];
          mkParagraph (Some "A") (Some HEADING_2) []; mkParagraph None None [""];
          mkParagraph (Some "B") (Some HEADING_2) []; mkParagraph None None [""];
          mkParagraph (Some "C") (Some HEADING_2) []; mkParagraph None None [""] ]))).
Proof. reflexivity. Qed.

(** C1. The sections the editor loads are sorted by order position, and
    for every project and every list of sections the export returns a
    file whose content is: the topic as the one HEADING_1 paragraph (or
    as the one title slide), followed by exactly one (title, body) pair
    per section, in the order of the list, the body of a section without
    content being the empty string. *)
Theorem export_topic_once_sections_in_order :
  (forall (id : Id) (st : Store),
     StronglySorted by_order_index (select_sections id st)) /\
  (forall (project : ProjectRow) (secs : list SectionRow) (e : EditorState) (w : World),
     exists file,
       fst (exportDocument (with_sections secs (with_project (Some project) e)) w)
         = Returned (Some file) /\
       match file with
       | DocxFile _ doc =>
           p_document_type project = docx /\
           heading_texts HEADING_1 (doc_children doc) = [Some (p_topic project)] /\
           exists rest,
             doc_children doc
               = mkParagraph (Some (p_topic project)) (Some HEADING_1) [] :: rest /\
             docx_entries rest = Some (map rendered secs)
       | PptxFile _ slides =>
           p_document_type project = pptx /\
           exists rest,
             slides = mkSlide [(p_topic project, title_options)] :: rest /\
             pptx_entries rest = Some (map rendered secs)
       end).
Proof.
  split; [exact select_sections_sorted|].
  intros project secs e w.
  unfold exportDocument. cbn [ed_project with_sections with_project ed_sections].
  destruct (p_document_type project) eqn:Hdt.
  - eexists. split; [reflexivity|]. cbn [doc_children].
    split; [reflexivity|]. split.
    + unfold docx_children, heading_texts. cbn [List.filter para_heading map para_text].
      f_equal. apply heading1_sections.
    + eexists. split; [reflexivity|]. apply docx_entries_sections.
  - eexists. split; [reflexivity|].
    split; [reflexivity|].
    eexists. split; [reflexivity|]. apply pptx_entries_sections.
Qed.

(** ** Invariants of computations

    The rules for [keeps] follow the structure of an [Async] term; only
    [db_call] needs to look at the invariant. *)

Section Keeps.
Variable I : World -> Prop.
Hypothesis I_toasts : forall st cs ts ts', I (mkWorld st cs ts) -> I (mkWorld st cs ts').

Lemma keeps_ret {A} (a : A) : keeps I (ret a).
Proof. intros w H. exact H. Qed.

Lemma keeps_throw {A} (e : string) : keeps I (@throw A e).
Proof. intros w H. exact H. Qed.

Lemma keeps_bind {A B} (m : Async A) (k : A -> Async B) :
  keeps I m -> (forall a, keeps I (k a)) -> keeps I (bind m k).
Proof.
  intros Hm Hk w H. unfold bind. specialize (Hm w H).
  destruct (m w) as [[a|e] w']; cbn [snd] in *; [apply Hk, Hm | exact Hm].
Qed.

Lemma keeps_try_catch {A} (m : Async A) (h : string -> Async A) :
  keeps I m -> (forall e, keeps I (h e)) -> keeps I (try_catch m h).
Proof.
  intros Hm Hh w H. unfold try_catch. specialize (Hm w H).
  destruct (m w) as [[a|e] w']; cbn [snd] in *; [exact Hm | apply Hh, Hm].
Qed.

Lemma keeps_toast (t : Toast) : keeps I (toast t).
Proof. intros [st cs ts] H. cbn. eapply I_toasts, H. Qed.

Lemma keeps_db_read {A} (served : bool) (q : Store -> PgResult A) :
  keeps I (db_read served q).
Proof. intros w H. unfold db_read. destruct served; exact H. Qed.

Lemma keeps_db_call {A} (served : bool) (stmt : Store -> PgResult A * Store) :
  stmt_keeps I stmt -> keeps I (db_call served stmt).
Proof.
  intros Hs w H. unfold db_call. destruct served; [|exact H].
  destruct (stmt (w_store w)) as [[a|m] st'] eqn:E; cbn [snd]; [|exact H].
  eapply Hs; eassumption.
Qed.
End Keeps.

(** Splits a goal [keeps I m] along the term [m]; what is left are the
    statements of the store, as [stmt_keeps] goals. *)
Ltac keeps_step :=
  lazymatch goal with
  | |- keeps _ (bind _ _) => apply keeps_bind; [|intros ?]
  | |- keeps _ (try_catch _ _) => apply keeps_try_catch; [|intros ?]
  | |- keeps _ (ret _) => apply keeps_ret
  | |- keeps _ (throw _) => apply keeps_throw
  | |- keeps _ (toast _) => apply keeps_toast
  | |- keeps _ (db_read _ _) => apply keeps_db_read
  | |- keeps _ (db_call _ _) => apply keeps_db_call
  | |- keeps _ (match ?x with _ => _ end) => destruct x
  | |- keeps _ (if ?x then _ else _) => destruct x
  end.

(** ** C2: the status after a failed bulk generation *)

Lemma status_of_update (id : Id) (s : Status) (st : Store) :
  status_of (set_status id s st) id
  = option_map (fun _ => s) (status_of st id).
Proof.
  unfold status_of, set_status. cbn [projects].
  induction (projects st) as [|p ps IH]; [reflexivity|].
  cbn [map List.find]. destruct (Nat.eqb (p_id p) id) eqn:E.
  - cbn [p_id List.find]. rewrite E. reflexivity.
  - rewrite E. exact IH.
Qed.


(** The world in which [generateAllContent] ends when the invoke fails:
    the two updates, each one applied if the store served it. *)
Lemma generateAllContent_failed (env : GenerateEnv) (id : Id) (e : EditorState)
    (st : Store) (project : ProjectRow) :
  ed_project e = Some project ->
  upstream_fails env = true ->
  final_store (run (generateAllContent env id e) st)
  = let st1 := if ge_generating_served env
               then set_status id generating st else st in
    if ge_final_served env then set_status id draft st1 else st1.
Proof.
  intros Hp Hf. unfold generateAllContent. rewrite Hp.
  unfold upstream_fails in Hf.
  destruct env as [g r reply f reload]. cbn [ge_reached ge_reply] in Hf.
  unfold final_store, run, invoke_generate_content.
  cbn [ge_generating_served ge_reached ge_reply ge_final_served ge_reload].
  destruct r; [destruct reply as [m|c]; [|discriminate Hf]|]; destruct g, f; reflexivity.
Qed.

(** C2, as stated, fails: the store applies the update to 'generating',
    the invoke does not reach the edge function, and the store does not
    serve the update to 'draft', whose result nobody looks at.  The
    status stays 'generating'. *)
Lemma failed_generation_can_leave_generating :
  ~ (forall (env : GenerateEnv) (id : Id) (e : EditorState) (st : Store)
            (project : ProjectRow) (s0 : Status),
       ed_project e = Some project ->
       status_of st id = Some s0 ->
       upstream_fails env = true ->
       status_of (final_store (run (generateAllContent env id e) st)) id = Some draft).
Proof.
  intros H.
  pose (project := mkProject 0 7 docx "EV market analysis" draft).
  pose (secs := [mkSection 1 0 0 "A" None false]).
  specialize (H (mkGenerateEnv true false (GenFailed "") false (mkLoadEnv true true))
                0 (mkEditor (Some project) secs false false None ∅ ∅)
                (mkStore [project] secs [] [] 2) project draft
                eq_refl eq_refl eq_refl).
  vm_compute in H. discriminate H.
Qed.

(** C2, amended.  For every run of the bulk generation in which the
    invoke fails and the store serves the update to 'draft', the status
    of the project afterwards is 'draft', whether or not the update to
    'generating' had been applied. *)
Theorem failed_generation_rolls_back_when_served
    (env : GenerateEnv) (id : Id) (e : EditorState) (st : Store)
    (project : ProjectRow) (s0 : Status) :
  ed_project e = Some project ->
  status_of st id = Some s0 ->
  upstream_fails env = true ->
  ge_final_served env = true ->
  status_of (final_store (run (generateAllContent env id e) st)) id = Some draft.
Proof.
  intros Hp Hs Hf Hserved.
  rewrite (generateAllContent_failed env id e st project Hp Hf). cbn zeta.
  rewrite Hserved, status_of_update.
  destruct (ge_generating_served env).
  - rewrite status_of_update, Hs. reflexivity.
  - rewrite Hs. reflexivity.
Qed.

Lemma failed_generation_rolls_back_when_served_witness :
  status_of
    (final_store
       (run (generateAllContent
               (mkGenerateEnv true true (GenFailed "AI API error") true (mkLoadEnv true true))
               0
               (mkEditor (Some (mkProject 0 7 docx "EV market analysis" draft))
                  [mkSection 1 0 0 "A" None false] false false None ∅ ∅))
            (mkStore [mkProject 0 7 docx "EV market analysis" draft]
               [mkSection 1 0 0 "A" None false] [] [] 2))) 0
  = Some draft.
Proof.
  apply (failed_generation_rolls_back_when_served _ _ _ _
           (mkProject 0 7 docx "EV market analysis" draft) draft);
    reflexivity.
Defined.

(** ** C3: what a refine call writes *)

Lemma has_section_update (id id' : Id) (content : string) (st : Store) :
  has_section (set_content id content st) id' = has_section st id'.
Proof.
  unfold has_section, set_content. cbn [sections].
  induction (sections st) as [|s l IH]; [reflexivity|].
  cbn [map existsb]. rewrite IH. f_equal.
  destruct (Nat.eqb (s_id s) id); reflexivity.
Qed.

Lemma content_of_update (id : Id) (content : string) (st : Store) :
  has_section st id = true ->
  content_of (set_content id content st) id = Some (Some content).
Proof.
  unfold has_section, content_of, set_content. cbn [sections].
  induction (sections st) as [|s l IH]; [discriminate|].
  cbn [map existsb List.find]. destruct (Nat.eqb (s_id s) id) eqn:E.
  - intros _. cbn [s_id]. rewrite E. reflexivity.
  - rewrite E. cbn [orb]. exact IH.
Qed.

Lemma refined_spec (rq : RefineRequest) (content : string) (st : Store) :
  has_section st (rq_sectionId rq) = true ->
  has_section (refined rq content st) (rq_sectionId rq) = true /\
  refinement_history (refined rq content st)
    = refinement_history st
      ++ [mkRefinement (next_id st) (rq_sectionId rq) (rq_prompt rq)
            (rq_currentContent rq) content] /\
  content_of (refined rq content st) (rq_sectionId rq) = Some (Some content).
Proof.
  intros Hs. unfold refined, insert_refinement. rewrite Hs. cbn [snd].
  repeat split.
  - rewrite has_section_update. exact Hs.
  - rewrite content_of_update; [reflexivity | exact Hs].
Qed.

Lemma refine_content_applied (env : RefineEnv) (rq : RefineRequest)
    (content : string) (w : World) :
  api_key_configured env = true ->
  re_ai env = AiOk content ->
  re_history_served env = true ->
  re_section_served env = true ->
  has_section (w_store w) (rq_sectionId rq) = true ->
  fst (refine_content env POST (Some rq) w) = Returned (RespSuccess content) /\
  w_store (snd (refine_content env POST (Some rq) w)) = refined rq content (w_store w).
Proof.
  intros Hk Ha Hh Hu Hs. unfold api_key_configured in Hk.
  unfold refine_content, refined, try_catch, bind, db_call, ret, insert_refinement.
  destruct (re_api_key env) as [[|c k]|]; try discriminate Hk.
  rewrite Ha, Hh, Hu. cbn beta iota. rewrite Hs.
  cbn [fst snd w_store w_commits w_toasts]. split; reflexivity.
Qed.

(** C3, as stated, fails: the endpoint answers [{ success: true,
    content }] for a call whose insert into refinement_history the store
    did not serve, and no audit row is appended. *)
Lemma successful_refine_can_append_no_row :
  ~ (forall (env : RefineEnv) (rq : RefineRequest) (content : string) (st : Store),
       has_section st (rq_sectionId rq) = true ->
       fst (run (refine_content env POST (Some rq)) st) = Returned (RespSuccess content) ->
       exists row,
         refinement_history (final_store (run (refine_content env POST (Some rq)) st))
           = refinement_history st ++ [row]).
Proof.
  intros H.
  destruct (H (mkRefineEnv (Some "key") (AiOk "new text") false true)
              (mkRefineRequest 1 "Make this more formal" (Some "old text") "A")
              "new text"
              (mkStore [mkProject 0 7 docx "T" completed]
                 [mkSection 1 0 0 "A" (Some "old text") true] [] [] 2)
              eq_refl eq_refl) as [row Hrow].
  vm_compute in Hrow. discriminate Hrow.
Qed.

(** C3, amended.  For every refine call on an existing section whose
    upstream call succeeds and whose two statements the store applies,
    the endpoint answers with the new content, exactly one
    refinement_history row is appended, recording the prompt, the
    current content sent with the request and the new content, and the
    stored content of the section becomes the new content; after two
    such calls on the same section the stored content is the result of
    the second call and the two rows appended are in call order. *)
Theorem applied_refine_appends_one_row
    (env1 env2 : RefineEnv) (rq1 rq2 : RefineRequest) (c1 c2 : string) (st : Store) :
  api_key_configured env1 = true -> re_ai env1 = AiOk c1 ->
  re_history_served env1 = true -> re_section_served env1 = true ->
  api_key_configured env2 = true -> re_ai env2 = AiOk c2 ->
  re_history_served env2 = true -> re_section_served env2 = true ->
  has_section st (rq_sectionId rq1) = true ->
  rq_sectionId rq2 = rq_sectionId rq1 ->
  let once := run (refine_content env1 POST (Some rq1)) st in
  let twice := run (refine_content env1 POST (Some rq1) ;;;
                    refine_content env2 POST (Some rq2)) st in
  fst once = Returned (RespSuccess c1) /\
  refinement_history (final_store once)
    = refinement_history st
      ++ [mkRefinement (next_id st) (rq_sectionId rq1) (rq_prompt rq1)
            (rq_currentContent rq1) c1] /\
  content_of (final_store once) (rq_sectionId rq1) = Some (Some c1) /\
  fst twice = Returned (RespSuccess c2) /\
  refinement_history (final_store twice)
    = refinement_history st
      ++ [mkRefinement (next_id st) (rq_sectionId rq1) (rq_prompt rq1)
            (rq_currentContent rq1) c1;
          mkRefinement (S (next_id st)) (rq_sectionId rq1) (rq_prompt rq2)
            (rq_currentContent rq2) c2] /\
  content_of (final_store twice) (rq_sectionId rq1) = Some (Some c2).
Proof.
  intros Hk1 Ha1 Hh1 Hu1 Hk2 Ha2 Hh2 Hu2 Hs Hid once twice.
  destruct (refine_content_applied env1 rq1 c1 (world_of st) Hk1 Ha1 Hh1 Hu1 Hs)
    as [Hr1 Hst1].
  destruct (refined_spec rq1 c1 st Hs) as [Hs1 [Hh1' Hc1]].
  assert (Hs1' : has_section (w_store (snd (refine_content env1 POST (Some rq1) (world_of st))))
                   (rq_sectionId rq2) = true).
  { cbn [w_store world_of] in Hst1. rewrite Hst1, Hid. exact Hs1. }
  destruct (refine_content_applied env2 rq2 c2 _ Hk2 Ha2 Hh2 Hu2 Hs1') as [Hr2 Hst2].
  assert (Hs2 : has_section (refined rq1 c1 st) (rq_sectionId rq2) = true)
    by (rewrite Hid; exact Hs1).
  destruct (refined_spec rq2 c2 (refined rq1 c1 st) Hs2) as [_ [Hh2' Hc2]].
  assert (Hnext : next_id (refined rq1 c1 st) = S (next_id st)).
  { unfold refined, insert_refinement. rewrite Hs. reflexivity. }
  subst once twice. unfold final_store, run.
  cbn [w_store world_of] in Hst1.
  split; [exact Hr1|]. split; [rewrite Hst1; exact Hh1'|].
  split; [rewrite Hst1; exact Hc1|].
  unfold bind at 1 2 3.
  destruct (refine_content env1 POST (Some rq1) (world_of st)) as [[r|err] w1] eqn:E1;
    cbn [fst snd] in *; [|discriminate Hr1].
  split; [exact Hr2|].
  rewrite Hst2, Hst1. split.
  - rewrite Hh2', Hh1', Hnext, Hid, <- app_assoc. reflexivity.
  - rewrite <- Hid. exact Hc2.
Qed.

Lemma applied_refine_appends_one_row_witness :
  let st := mkStore [mkProject 0 7 docx "T" completed]
              [mkSection 1 0 0 "A" (Some "v0") true] [] [] 2 in
  let rq1 := mkRefineRequest 1 "Make this more formal" (Some "v0") "A" in
  let rq2 := mkRefineRequest 1 "Add more details" (Some "v1") "A" in
  let env1 := mkRefineEnv (Some "key") (AiOk "v1") true true in
  let env2 := mkRefineEnv (Some "key") (AiOk "v2") true true in
  refinement_history
    (final_store (run (refine_content env1 POST (Some rq1) ;;;
                       refine_content env2 POST (Some rq2)) st))
  = [mkRefinement 2 1 "Make this more formal" (Some "v0") "v1";
     mkRefinement 3 1 "Add more details" (Some "v1") "v2"] /\
  content_of
    (final_store (run (refine_content env1 POST (Some rq1) ;;;
                       refine_content env2 POST (Some rq2)) st)) 1
  = Some (Some "v2").
Proof.
  intros st rq1 rq2 env1 env2.
  destruct (applied_refine_appends_one_row env1 env2 rq1 rq2 "v1" "v2" st
              eq_refl eq_refl eq_refl eq_refl eq_refl eq_refl eq_refl eq_refl
              eq_refl eq_refl) as (_ & _ & _ & _ & Hh & Hc).
  split; [exact Hh | exact Hc].
Defined.

(** ** C9: the endpoint reports success without looking at its writes *)

(** C9. The answer of the refine-content endpoint is the same whatever
    the store did with the two statements (and whatever the store
    holds): it depends on the request, the API key and the upstream
    reply only.  There is an execution that answers [success] while no
    audit row was written, one that answers [success] while the stored
    content of the section was left unchanged, and one, for a section id
    that no row carries, that answers [success] and writes nothing. *)
Theorem refine_success_ignores_write_results :
  (forall (key : option string) (ai : AiReply) (h u h' u' : bool)
          (method : Method) (body : option RefineRequest) (w w' : World),
     fst (refine_content (mkRefineEnv key ai h u) method body w)
     = fst (refine_content (mkRefineEnv key ai h' u') method body w')) /\
  (let st := mkStore [mkProject 0 7 docx "T" completed]
               [mkSection 1 0 0 "A" (Some "old") true] [] [] 2 in
   let rq := mkRefineRequest 1 "Make this more formal" (Some "old") "A" in
   let r := run (refine_content (mkRefineEnv (Some "key") (AiOk "new") false true)
                   POST (Some rq)) st in
   fst r = Returned (RespSuccess "new") /\
   refinement_history (final_store r) = [] /\
   content_of (final_store r) 1 = Some (Some "new")) /\
  (let st := mkStore [mkProject 0 7 docx "T" completed]
               [mkSection 1 0 0 "A" (Some "old") true] [] [] 2 in
   let rq := mkRefineRequest 1 "Make this more formal" (Some "old") "A" in
   let r := run (refine_content (mkRefineEnv (Some "key") (AiOk "new") true false)
                   POST (Some rq)) st in
   fst r = Returned (RespSuccess "new") /\
   refinement_history (final_store r)
     = [mkRefinement 2 1 "Make this more formal" (Some "old") "new"] /\
   content_of (final_store r) 1 = Some (Some "old")) /\
  (let st := mkStore [mkProject 0 7 docx "T" completed]
               [mkSection 1 0 0 "A" (Some "old") true] [] [] 2 in
   let rq := mkRefineRequest 5 "Make this more formal" (Some "old") "A" in
   let r := run (refine_content (mkRefineEnv (Some "key") (AiOk "new") true true)
                   POST (Some rq)) st in
   fst r = Returned (RespSuccess "new") /\ final_store r = st).
Proof.
  split; [|repeat split].
  intros key ai h u h' u' method body w w'.
  unfold refine_content, try_catch, bind, db_call, ret, throw.
  cbn [re_api_key re_ai re_history_served re_section_served].
  destruct method; [reflexivity|].
  destruct body as [rq|]; [|reflexivity].
  destruct key as [[|c k]|]; try reflexivity.
  destruct ai; try reflexivity.
  unfold insert_refinement, update_section_content.
  destruct h, u, h', u';
    destruct (has_section (w_store w) (rq_sectionId rq));
    destruct (has_section (w_store w') (rq_sectionId rq)); reflexivity.
Qed.

(** ** C5: the store after a failure *)

Lemma loadProject_store (env : LoadEnv) (id : Id) (e : EditorState) :
  forall st, keeps (fun w => w_store w = st) (loadProject env id e).
Proof.
  intros st. unfold loadProject.
  repeat (keeps_step; try (intros; cbn in *; assumption)).
Qed.

Lemma generateOutline_store (answer : FunctionsResponse (list string))
    (c : ConfigureState) (w : World) :
  w_store (snd (generateOutline answer c w)) = w_store w /\
  w_commits (snd (generateOutline answer c w)) = w_commits w.
Proof.
  unfold generateOutline, generate_outline_function.
  destruct (blank (cf_topic c)); [split; reflexivity|].
  destruct answer; split; reflexivity.
Qed.

Lemma refine_content_failure_store (env : RefineEnv) (method : Method)
    (body : option RefineRequest) (w : World) (err : string) :
  fst (refine_content env method body w) = Returned (RespFailure err) ->
  snd (refine_content env method body w) = w.
Proof.
  unfold refine_content, try_catch, bind, throw, ret.
  destruct method; [discriminate|].
  destruct body as [rq|]; [|reflexivity].
  destruct (re_api_key env) as [[|c k]|]; try reflexivity.
  destruct (re_ai env); try reflexivity.
  unfold db_call. intros H. exfalso.
  repeat case_match; simplify_eq; cbn in *; repeat case_match; simplify_eq.
Qed.

Lemma stmt_keeps_toasts {A} (ts : list Toast) (stmt : Store -> PgResult A * Store) :
  stmt_keeps (fun w => w_toasts w = ts) stmt.
Proof. intros w a st' H _. exact H. Qed.

Lemma refine_content_toasts (env : RefineEnv) (method : Method)
    (body : option RefineRequest) (w : World) :
  w_toasts (snd (refine_content env method body w)) = w_toasts w.
Proof.
  assert (H : keeps (fun w' => w_toasts w' = w_toasts w) (refine_content env method body)).
  { unfold refine_content.
    repeat (keeps_step; try apply stmt_keeps_toasts). }
  apply H. reflexivity.
Qed.

Lemma loadProject_toasts (env : LoadEnv) (id : Id) (e : EditorState) (w : World) (t : Toast) :
  In t (w_toasts (snd (loadProject env id e w))) ->
  In t (w_toasts w) \/ t = toast_error "Failed to load project".
Proof.
  unfold loadProject, bind, db_read, toast, ret.
  destruct (le_project_served env); cbn.
  - destruct (select_project id (w_store w)); cbn.
    + destruct (le_sections_served env); cbn; [tauto|].
      rewrite in_app_iff. cbn. intuition.
    + rewrite in_app_iff. cbn. intuition.
  - rewrite in_app_iff. cbn. intuition.
Qed.

Lemma loadProject_returns (env : LoadEnv) (id : Id) (e : EditorState) : returns (loadProject env id e).
Proof.
  intros w. unfold loadProject, bind, db_read, toast, ret.
  destruct (le_project_served env); cbn; [|eexists; reflexivity].
  destruct (select_project id (w_store w)); cbn; [|eexists; reflexivity].
  destruct (le_sections_served env); cbn; eexists; reflexivity.
Qed.

Lemma invoke_refine_content_spec (env : RefineCallEnv) (rq : RefineRequest) (w : World) :
  exists r, fst (invoke_refine_content env rq w) = Returned r /\
    w_toasts (snd (invoke_refine_content env rq w)) = w_toasts w /\
    (forall m, r = FnError m -> snd (invoke_refine_content env rq w) = w).
Proof.
  unfold invoke_refine_content.
  destruct (rc_reached env); [|eexists; repeat split; reflexivity].
  unfold bind.
  pose proof (refine_content_toasts (rc_function env) POST (Some rq) w) as Ht.
  pose proof (refine_content_failure_store (rc_function env) POST (Some rq) w) as Hf.
  destruct (refine_content (rc_function env) POST (Some rq) w) as [[resp|err] w1] eqn:E.
  - cbn [fst snd] in *. destruct resp as [|content|err]; cbn.
    + eexists; repeat split; [exact Ht | discriminate].
    + eexists; repeat split; [exact Ht | discriminate].
    + eexists; repeat split; [exact Ht|]. intros _ _. exact (Hf err eq_refl).
  - exfalso. revert E. unfold refine_content, try_catch, bind, throw, ret, db_call.
    repeat case_match; intros; simplify_eq.
Qed.

Lemma refineSection_failure_store (env : RefineSectionEnv) (id sectionId : Id)
    (e : EditorState) (st : Store) :
  In (toast_error "Failed to refine section")
     (w_toasts (snd (run (refineSection env id sectionId e) st))) ->
  final_store (run (refineSection env id sectionId e) st) = st.
Proof.
  unfold final_store, run, refineSection.
  destruct (ed_refinementPrompts e !! sectionId) as [prompt|]; [|reflexivity].
  destruct (blank prompt); [reflexivity|].
  destruct (List.find _ (ed_sections e)) as [section|]; [|reflexivity].
  unfold bind, try_catch. cbn beta.
  destruct (invoke_refine_content_spec (rs_call env)
              (mkRefineRequest sectionId prompt (s_content section) (s_title section))
              (world_of st)) as (r & Hr & Ht & Hf).
  destruct (invoke_refine_content _ _ (world_of st)) as [[r'|err] w1]; cbn [fst snd] in *;
    [|discriminate Hr].
  injection Hr as ->. destruct r as [content|m].
  - intros H. exfalso. revert H.
    pose proof (loadProject_toasts (rs_reload env) id e w1) as Hl.
    destruct (loadProject_returns (rs_reload env) id e w1) as [e2 Hret].
    destruct (loadProject (rs_reload env) id e w1) as [[e2'|err] w2]; cbn [fst snd] in *;
      [|discriminate Hret].
    cbn. rewrite in_app_iff. cbn. intros [H|[H|[]]]; [|discriminate H].
    destruct (Hl _ H) as [H'|H']; [|discriminate H'].
    rewrite Ht in H'. destruct H'.
  - intros _. rewrite (Hf m eq_refl). reflexivity.
Qed.

(** C5, as stated, fails on project creation: the insert of the project
    row is applied, the insert of the section rows is not, the submit
    fails, and the project row stays in the store. *)
Lemma failed_submit_leaves_project_row :
  ~ (forall (user : option Id) (env : SubmitEnv) (c : ConfigureState) (st : Store),
       created (run (handleSubmit user env c) st) = None ->
       final_store (run (handleSubmit user env c) st) = st).
Proof.
  intros H.
  specialize (H (Some 7) (mkSubmitEnv true false)
                (mkConfigure docx "EV market analysis" ["A"; "B"] false false)
                empty_store eq_refl).
  vm_compute in H. discriminate H.
Qed.

(** *** Project creation, case by case *)

Lemma has_project_inserted (user_id : Id) (dt : DocumentType) (topic : string)
    (status : Status) (st : Store) :
  has_project (snd (insert_project user_id dt topic status st)) (next_id st) = true.
Proof.
  unfold has_project, insert_project. cbn [snd projects].
  rewrite existsb_app. cbn. rewrite Nat.eqb_refl. apply orb_true_r.
Qed.

Lemma imap_payload_project (project_id : Id) (pos : nat -> Z) (titles : list string) :
  Forall (fun r => sp_project_id r = project_id)
    (imap (fun index title => mkSectionPayload project_id (trim title) (pos index)) titles).
Proof.
  revert pos. induction titles as [|t l IH]; intros pos; cbn [imap]; constructor.
  - reflexivity.
  - apply (IH (fun i => pos (S i))).
Qed.

Lemma sectionsData_project (project_id : Id) (titles : list string) :
  Forall (fun r => sp_project_id r = project_id) (sectionsData project_id titles).
Proof. apply imap_payload_project. Qed.

Lemma sectionsData_fk (user_id : Id) (dt : DocumentType) (topic : string)
    (status : Status) (titles : list string) (st : Store) :
  forallb (fun r => has_project (snd (insert_project user_id dt topic status st))
                      (sp_project_id r))
          (sectionsData (next_id st) titles) = true.
Proof.
  apply forallb_forall. intros r Hr.
  pose proof (sectionsData_project (next_id st) titles) as H.
  rewrite List.Forall_forall in H. rewrite (H r Hr).
  apply has_project_inserted.
Qed.

Lemma handleSubmit_run (user : option Id) (env : SubmitEnv) (c : ConfigureState)
    (st : Store) :
  let r := run (handleSubmit user env c) st in
  match user with
  | Some user_id =>
      if submit_valid c && se_project_served env then
        if se_sections_served env then
          created r = Some (next_id st) /\ final_store r = submitted user_id c st
        else
          created r = None /\
          final_store r
            = snd (insert_project user_id (cf_documentType c) (trim (cf_topic c)) draft st)
      else created r = None /\ final_store r = st
  | None => created r = None /\ final_store r = st
  end.
Proof.
  unfold run, handleSubmit, submit_valid, created, final_store.
  destruct (blank (cf_topic c) || existsb blank (cf_sections c)).
  { destruct user; split; reflexivity. }
  destruct user as [user_id|]; [|split; reflexivity].
  destruct env as [ps ss]. cbn [negb andb se_project_served se_sections_served].
  destruct ps; [|split; reflexivity].
  destruct ss; [|split; reflexivity].
  unfold bind, try_catch, db_call. cbn [insert_project w_store world_of fst snd].
  unfold insert_sections.
  pose proof (sectionsData_fk user_id (cf_documentType c) (trim (cf_topic c)) draft
                (cf_sections c) st) as Hfk.
  cbn [insert_project snd next_id p_id projects sections refinement_history feedback]
    in Hfk |- *.
  rewrite Hfk. split; reflexivity.
Qed.

(** C5, amended.  A refine call that fails leaves the world as it was:
    the endpoint answers 500 only before its first statement, and the
    page shows "Failed to refine section" only when nothing was written.
    A failed outline generation writes nothing.  A submit that fails
    leaves the store as it was, except when the insert of the project
    row was applied and the insert of the section rows was not: then
    the project row, and nothing else, has been added. *)
Theorem failures_leave_store_or_project_row :
  (forall (env : RefineEnv) (method : Method) (body : option RefineRequest)
          (w : World) (err : string),
     fst (refine_content env method body w) = Returned (RespFailure err) ->
     snd (refine_content env method body w) = w) /\
  (forall (env : RefineSectionEnv) (id sectionId : Id) (e : EditorState) (st : Store),
     In (toast_error "Failed to refine section")
        (w_toasts (snd (run (refineSection env id sectionId e) st))) ->
     final_store (run (refineSection env id sectionId e) st) = st) /\
  (forall (answer : FunctionsResponse (list string)) (c : ConfigureState) (w : World),
     w_store (snd (generateOutline answer c w)) = w_store w) /\
  (forall (user : option Id) (env : SubmitEnv) (c : ConfigureState) (st : Store),
     created (run (handleSubmit user env c) st) = None ->
     final_store (run (handleSubmit user env c) st) = st \/
     exists user_id,
       user = Some user_id /\
       se_project_served env = true /\ se_sections_served env = false /\
       final_store (run (handleSubmit user env c) st)
       = snd (insert_project user_id (cf_documentType c) (trim (cf_topic c)) draft st)).
Proof.
  split; [exact refine_content_failure_store|].
  split; [exact refineSection_failure_store|].
  split; [intros answer c w; apply generateOutline_store|].
  intros user env c st Hnone.
  pose proof (handleSubmit_run user env c st) as H. cbn zeta in H.
  destruct user as [user_id|]; [|left; apply H].
  destruct (submit_valid c && se_project_served env) eqn:Hv; [|left; apply H].
  destruct (se_sections_served env) eqn:Hs.
  - destruct H as [Hc _]. rewrite Hc in Hnone. discriminate Hnone.
  - right. exists user_id. apply andb_true_iff in Hv. destruct Hv as [_ Hp].
    repeat split; [exact Hp | apply H].
Qed.

Lemma failures_leave_store_or_project_row_witness :
  (let st := mkStore [mkProject 0 7 docx "T" completed]
               [mkSection 1 0 0 "A" (Some "old") true] [] [] 2 in
   snd (refine_content (mkRefineEnv (Some "key") (AiNotOk "Too Many Requests") true true)
          POST (Some (mkRefineRequest 1 "Make this more formal" (Some "old") "A"))
          (world_of st))
   = world_of st) /\
  (let r := run (handleSubmit (Some 7) (mkSubmitEnv true false)
                   (mkConfigure docx "EV market analysis" ["A"; "B"] false false))
                empty_store in
   final_store r = empty_store \/
   exists user_id,
     Some 7 = Some user_id /\ true = true /\ false = false /\
     final_store r = snd (insert_project user_id docx (trim "EV market analysis") draft
                            empty_store)).
Proof.
  split.
  - intros st.
    apply (proj1 failures_leave_store_or_project_row
             _ _ _ _ "AI API error: Too Many Requests").
    reflexivity.
  - intros r.
    apply (proj2 (proj2 (proj2 failures_leave_store_or_project_row))
             (Some 7) (mkSubmitEnv true false)
             (mkConfigure docx "EV market analysis" ["A"; "B"] false false) empty_store).
    reflexivity.
Defined.

(** ** Relations kept by every operation *)

(** A relation between stores that every statement respects is kept by
    every operation. *)
Section Frame.
Variable R : Store -> Store -> Prop.
Hypothesis R_refl : forall st, R st st.
Hypothesis R_trans : forall a b c, R a b -> R b c -> R a c.

Hypothesis R_insert_project :
  forall u dt t s, respects R (insert_project u dt t s).
Hypothesis R_insert_sections : forall rows, respects R (insert_sections rows).
Hypothesis R_update_project_status :
  forall id s, respects R (update_project_status id s).
Hypothesis R_update_section_content :
  forall id c, respects R (update_section_content id c).
Hypothesis R_insert_refinement :
  forall sid p prev new, respects R (insert_refinement sid p prev new).
Hypothesis R_upsert_feedback : forall pl, respects R (upsert_feedback pl).
Hypothesis R_set_generated : forall listed f, respects R (set_generated listed f).

Lemma respects_keeps {A} (st0 : Store) (stmt : Store -> PgResult A * Store) :
  respects R stmt -> stmt_keeps (related R st0) stmt.
Proof.
  intros Hs w a st' Hw E. unfold related in *. cbn [w_store].
  eapply R_trans; [exact Hw|]. specialize (Hs (w_store w)). rewrite E in Hs. exact Hs.
Qed.

Lemma related_toasts (st0 : Store) :
  forall st cs ts ts', related R st0 (mkWorld st cs ts) -> related R st0 (mkWorld st cs ts').
Proof. intros st cs ts ts' H. exact H. Qed.

Ltac frame :=
  repeat (first
    [ apply keeps_toast; [apply related_toasts]
    | apply keeps_db_call; apply respects_keeps; auto
    | keeps_step ]).

Lemma exec_keeps (st0 : Store) (op : Op) : keeps (related R st0) (exec op).
Proof.
  destruct op; cbn [exec];
    unfold handleSubmit, generateOutline, generate_outline_function,
      generateAllContent, invoke_generate_content, generate_content_function,
      refineSection, invoke_refine_content, refine_content, handleFeedback,
      saveComment, exportDocument, loadProject;
    frame.
Qed.

Lemma exec_all_keeps (st0 : Store) (ops : list Op) : keeps (related R st0) (exec_all ops).
Proof.
  induction ops as [|op ops IH]; cbn [exec_all foldr].
  - apply keeps_ret.
  - apply keeps_bind; [apply exec_keeps | intros _; exact IH].
Qed.

Lemma exec_all_frame (ops : list Op) (st : Store) :
  R st (final_store (run (exec_all ops) st)).
Proof. apply (exec_all_keeps st ops (world_of st)). apply R_refl. Qed.
End Frame.

(** ** C4: order positions *)

Lemma keeps_positions_same (st st' : Store) :
  map position (sections st') = map position (sections st) -> keeps_positions st st'.
Proof. intros H. exists []. rewrite H, app_nil_r. reflexivity. Qed.

Lemma keeps_positions_trans (a b c : Store) :
  keeps_positions a b -> keeps_positions b c -> keeps_positions a c.
Proof.
  intros [x Hx] [y Hy]. exists (x ++ y). rewrite Hy, Hx, <- app_assoc. reflexivity.
Qed.

Lemma map_position_update {f : SectionRow -> SectionRow} (l : list SectionRow) :
  (forall s, position (f s) = position s) -> map position (map f l) = map position l.
Proof.
  intros Hf. rewrite List.map_map. apply List.map_ext. exact Hf.
Qed.

Lemma imap_payload_order (project_id : Id) (pos : nat -> Z) (titles : list string) :
  map sp_order_index
    (imap (fun index title => mkSectionPayload project_id (trim title) (pos index)) titles)
  = map pos (seq 0 (length titles)).
Proof.
  revert pos. induction titles as [|t l IH]; intros pos; [reflexivity|].
  cbn [imap map length seq sp_order_index]. f_equal.
  rewrite <- List.seq_shift, List.map_map. apply (IH (fun i => pos (S i))).
Qed.

Lemma imap_payload_ids (project_id : Id) (pos : nat -> Z) (titles : list string) :
  map sp_project_id
    (imap (fun index title => mkSectionPayload project_id (trim title) (pos index)) titles)
  = map (fun _ => project_id) titles.
Proof.
  revert pos. induction titles as [|t l IH]; intros pos; [reflexivity|].
  cbn [imap map sp_project_id]. f_equal. apply (IH (fun i => pos (S i))).
Qed.

Lemma number_sections_spec (first : Id) (rows : list SectionPayload) :
  map s_order_index (number_sections first rows) = map sp_order_index rows /\
  map s_project_id (number_sections first rows) = map sp_project_id rows /\
  map s_title (number_sections first rows) = map sp_title rows.
Proof.
  revert first. induction rows as [|r rows IH]; intros first; [repeat split|].
  destruct (IH (S first)) as (H1 & H2 & H3).
  cbn [number_sections map s_order_index s_project_id s_title].
  rewrite H1, H2, H3. repeat split.
Qed.

(** C4. The section rows that a successful submit inserts carry the
    order positions 0, 1, ..., n-1 in the order of the n titles, and
    all belong to the project created.  No sequence of operations, from
    any store (with or without gaps in its order positions), removes,
    reorders or renumbers a section row: the ids and order positions of
    the rows present before are the ids and order positions of the same
    rows afterwards. *)
Theorem order_positions_from_index_never_renumbered :
  (forall (user : option Id) (env : SubmitEnv) (c : ConfigureState) (st : Store)
          (project_id : Id),
     created (run (handleSubmit user env c) st) = Some project_id ->
     exists new,
       sections (final_store (run (handleSubmit user env c) st)) = sections st ++ new /\
       map s_order_index new = map Z.of_nat (seq 0 (length (cf_sections c))) /\
       map s_project_id new = map (fun _ => project_id) (cf_sections c)) /\
  (forall (ops : list Op) (st : Store),
     keeps_positions st (final_store (run (exec_all ops) st))).
Proof.
  split.
  - intros user env c st project_id Hc.
    pose proof (handleSubmit_run user env c st) as H. cbn zeta in H.
    destruct user as [user_id|]; [|destruct H as [H _]; congruence].
    destruct (submit_valid c && se_project_served env);
      [|destruct H as [H _]; congruence].
    destruct (se_sections_served env); [|destruct H as [H _]; congruence].
    destruct H as [Hcreated Hstore]. rewrite Hcreated in Hc. injection Hc as <-.
    rewrite Hstore. unfold submitted. cbn [sections].
    eexists. split; [reflexivity|].
    destruct (number_sections_spec (S (next_id st))
                (sectionsData (next_id st) (cf_sections c))) as (H1 & H2 & _).
    rewrite H1, H2. unfold sectionsData. split.
    + apply imap_payload_order.
    + apply imap_payload_ids.
  - intros ops st.
    apply exec_all_frame.
    + intros s. apply keeps_positions_same. reflexivity.
    + exact keeps_positions_trans.
    + intros u dt t s s0. apply keeps_positions_same. reflexivity.
    + intros rows s0. unfold insert_sections.
      destruct (forallb _ rows); cbn [snd]; [|apply keeps_positions_same; reflexivity].
      eexists. cbn [sections]. rewrite List.map_app. reflexivity.
    + intros id s s0. apply keeps_positions_same. reflexivity.
    + intros id c s0. apply keeps_positions_same. cbn [snd update_section_content set_content sections].
      apply map_position_update. intros s. destruct (Nat.eqb (s_id s) id); reflexivity.
    + intros sid p prev new s0. unfold insert_refinement.
      destruct (has_section s0 sid); apply keeps_positions_same; reflexivity.
    + intros pl s0. unfold upsert_feedback.
      destruct (negb _); [apply keeps_positions_same; reflexivity|].
      destruct (fp_id pl); [destruct (existsb _ _)|]; apply keeps_positions_same; reflexivity.
    + intros listed f s0. apply keeps_positions_same. cbn [snd set_generated mark_generated sections].
      apply map_position_update. intros s. destruct (existsb _ listed); reflexivity.
Qed.

Lemma order_positions_from_index_never_renumbered_witness :
  exists new,
    sections (final_store (run (handleSubmit (Some 7) (mkSubmitEnv true true)
                                  (mkConfigure docx "EV market analysis" ["A"; "B"; "C"]
                                     false false)) empty_store))
      = sections empty_store ++ new /\
    map s_order_index new = [0%Z; 1%Z; 2%Z] /\
    map s_project_id new = [0; 0; 0].
Proof.
  apply (proj1 order_positions_from_index_never_renumbered
           (Some 7) (mkSubmitEnv true true)
           (mkConfigure docx "EV market analysis" ["A"; "B"; "C"] false false)
           empty_store 0).
  reflexivity.
Defined.

(** ** C7: the transitions of the status *)

Lemma loadProject_world (env : LoadEnv) (id : Id) (e : EditorState) (w : World) :
  exists e2 ts,
    loadProject env id e w = (Returned e2, mkWorld (w_store w) (w_commits w) ts).
Proof.
  unfold loadProject, bind, db_read, toast, ret. destruct w as [st cs ts]. cbn.
  destruct (le_project_served env); [|eexists _, _; reflexivity].
  destruct (select_project id st); [|eexists _, _; reflexivity].
  destruct (le_sections_served env); eexists _, _; reflexivity.
Qed.

Lemma status_of_set_generated (listed : list (Id * string)) (f : Id -> string)
    (st : Store) (id : Id) :
  status_of (mark_generated listed f st) id = status_of st id.
Proof. reflexivity. Qed.

Lemma generateAllContent_transitions (env : GenerateEnv) (id : Id) (e : EditorState)
    (st : Store) (project : ProjectRow) (s0 : Status) :
  ed_project e = Some project ->
  status_of st id = Some s0 ->
  transitions (status_trace id st (snd (run (generateAllContent env id e) st)))
  = run_transitions env s0.
Proof.
  intros Hp Hs. unfold generateAllContent, run_transitions, upstream_fails. rewrite Hp.
  destruct env as [g r reply f reload].
  cbn [ge_generating_served ge_reached ge_reply ge_final_served ge_reload].
  unfold run, invoke_generate_content, generate_content_function, status_trace.
  cbn [ge_reached ge_reply].
  unfold bind, try_catch, db_call, ret, throw, toast, update_project_status, set_generated.
  destruct r; [destruct reply as [m|content_of']|].
  2: { destruct g, f;
         cbn -[set_status mark_generated status_of step loadProject transitions];
         match goal with
         | |- context [loadProject ?a ?b ?c ?w] =>
             destruct (loadProject_world a b c w) as (e2 & ts & ->)
         end;
         cbn -[set_status mark_generated status_of step];
         rewrite ?status_of_update, ?status_of_set_generated, ?status_of_update, ?Hs;
         cbn [option_map]; unfold step; destruct s0; reflexivity. }
  all: destruct g, f; cbn -[set_status status_of step];
    rewrite ?status_of_update, ?Hs; cbn [option_map]; unfold step; destruct s0; reflexivity.
Qed.

(** *** Operations that leave every status alone *)

Lemma transitions_snoc (a : option Status) (l : list (option Status)) (x : option Status) :
  transitions (a :: l ++ [x])
  = transitions (a :: l)
    ++ match List.last l a, x with
       | Some p, Some q => step p q
       | _, _ => []
       end.
Proof.
  revert a. induction l as [|b l IH]; intros a.
  - cbn. destruct a, x; cbn; rewrite ?app_nil_r; reflexivity.
  - change (transitions (a :: (b :: l) ++ [x]))
      with (match a, b :: l ++ [x] with
            | Some p, Some q :: _ => step p q ++ transitions (b :: l ++ [x])
            | _, _ => transitions (b :: l ++ [x])
            end).
    change (transitions (a :: b :: l))
      with (match a, b :: l with
            | Some p, Some q :: _ => step p q ++ transitions (b :: l)
            | _, _ => transitions (b :: l)
            end).
    rewrite IH.
    replace (List.last (b :: l) a) with (List.last l b)
      by (clear; revert b; induction l as [|c l IHl]; intros b;
          [reflexivity | cbn [List.last] in *; destruct l; [reflexivity | apply IHl]]).
    destruct a, b; rewrite ?app_assoc; reflexivity.
Qed.

Lemma quiet_keeps {A} (id : Id) (st0 : Store) (stmt : Store -> PgResult A * Store) :
  (forall st, quiet id st (snd (stmt st))) ->
  stmt_keeps (no_transition id st0) stmt.
Proof.
  intros Hq w a st' [Hlast Htr] E. unfold no_transition, status_trace in *.
  cbn [w_store w_commits]. split.
  - rewrite List.last_last. reflexivity.
  - cbn [map] in Htr |- *. rewrite List.map_app. cbn [map].
    rewrite transitions_snoc, Htr. cbn [app].
    specialize (Hq (w_store w)). rewrite E in Hq. cbn [snd] in Hq.
    assert (Hl : List.last (map (fun st'' => status_of st'' id) (w_commits w))
                   (status_of st0 id) = status_of (w_store w) id).
    { rewrite Hlast. clear.
      induction (w_commits w) as [|c l IH]; [reflexivity|].
      destruct l; [reflexivity | exact IH]. }
    rewrite Hl. destruct Hq as [Hq|Hq].
    + rewrite Hq. reflexivity.
    + rewrite Hq. destruct (status_of (w_store w) id); [|reflexivity].
      unfold step. destruct (decide (s = s)); [reflexivity | congruence].
Qed.

Lemma quiet_same_projects (id : Id) (a b : Store) :
  projects b = projects a -> quiet id a b.
Proof. intros H. right. unfold status_of. rewrite H. reflexivity. Qed.

Lemma quiet_insert_project (id user_id : Id) (dt : DocumentType) (topic : string)
    (status : Status) (st : Store) :
  quiet id st (snd (insert_project user_id dt topic status st)).
Proof.
  unfold quiet, status_of, insert_project. cbn [snd projects].
  induction (projects st) as [|p ps IH]; [left; reflexivity|].
  cbn [app List.find]. destruct (Nat.eqb (p_id p) id); [right; reflexivity | exact IH].
Qed.

Lemma exec_quiet (id : Id) (st0 : Store) (op : Op) :
  is_generate op = false -> keeps (no_transition id st0) (exec op).
Proof.
  assert (Ht : forall st cs ts ts',
             no_transition id st0 (mkWorld st cs ts) ->
             no_transition id st0 (mkWorld st cs ts')) by (intros st cs ts ts' H; exact H).
  destruct op; try discriminate; intros _; cbn [exec];
    unfold handleSubmit, generateOutline, generate_outline_function,
      refineSection, invoke_refine_content, refine_content, handleFeedback,
      saveComment, exportDocument, loadProject;
    repeat (first
      [ apply keeps_toast; [exact Ht]
      | apply keeps_db_call; apply quiet_keeps; intros st
      | keeps_step ]).
  - apply quiet_insert_project.
  - apply quiet_same_projects. unfold insert_sections.
    destruct (forallb _ _); reflexivity.
  - apply quiet_same_projects. unfold insert_refinement.
    destruct (has_section _ _); reflexivity.
  - apply quiet_same_projects. reflexivity.
  - apply quiet_same_projects. unfold insert_refinement.
    destruct (has_section _ _); reflexivity.
  - apply quiet_same_projects. reflexivity.
  - apply quiet_same_projects. unfold upsert_feedback. cbn [fp_id].
    destruct (negb _); reflexivity.
  - apply quiet_same_projects. unfold upsert_feedback. cbn [fp_id].
    destruct (negb _); reflexivity.
Qed.

(** C7, as stated, fails.  A project is created; in the editor the
    bulk generation is started; the store does not serve the update to
    'generating', the upstream call succeeds, the store applies the
    update to 'completed': the status goes from 'draft' to 'completed'
    directly. *)
Lemma status_can_go_from_draft_to_completed :
  let create :=
    handleSubmit (Some 7) (mkSubmitEnv true true)
      (mkConfigure docx "EV market analysis" ["A"] false false) in
  let env :=
    mkGenerateEnv false true (GenSucceeded (fun _ => "text")) true (mkLoadEnv true true) in
  let session :=
    create ;;;
    e <- loadProject (mkLoadEnv true true) 0 initial_editor ;;
    generateAllContent env 0 e in
  transitions (status_trace 0 empty_store (snd (run session empty_store)))
    = [(draft, completed)] /\
  forallb allowed
    (transitions (status_trace 0 empty_store (snd (run session empty_store)))) = false.
Proof. split; vm_compute; reflexivity. Qed.

(** C7, amended.  Every project is inserted with the status 'draft'.
    No operation other than the bulk generation changes the status of
    any project.  A run of the bulk generation on a project in status
    [s0] changes the status as [run_transitions] says: to 'generating'
    if the store applies the first update, then, if the store applies
    the second update, to 'completed' when the upstream call succeeded
    and to 'draft' when it failed.  So a run that starts from 'draft'
    and whose two updates are applied takes draft→generating followed by
    generating→completed or generating→draft, and nothing else. *)
Theorem status_changes_only_in_generation :
  (forall (user : option Id) (env : SubmitEnv) (c : ConfigureState) (st : Store)
          (project_id : Id),
     created (run (handleSubmit user env c) st) = Some project_id ->
     exists row,
       projects (final_store (run (handleSubmit user env c) st)) = projects st ++ [row] /\
       p_id row = project_id /\ p_status row = draft) /\
  (forall (op : Op) (id : Id) (st : Store),
     is_generate op = false ->
     transitions (status_trace id st (snd (run (exec op) st))) = []) /\
  (forall (env : GenerateEnv) (id : Id) (e : EditorState) (st : Store)
          (project : ProjectRow) (s0 : Status),
     ed_project e = Some project ->
     status_of st id = Some s0 ->
     transitions (status_trace id st (snd (run (generateAllContent env id e) st)))
     = run_transitions env s0) /\
  (forall (env : GenerateEnv),
     ge_generating_served env = true ->
     ge_final_served env = true ->
     run_transitions env draft
     = [(draft, generating);
        (generating, if upstream_fails env then draft else completed)]).
Proof.
  split; [|split; [|split]].
  - intros user env c st project_id Hc.
    pose proof (handleSubmit_run user env c st) as H. cbn zeta in H.
    destruct user as [user_id|]; [|destruct H as [H _]; congruence].
    destruct (submit_valid c && se_project_served env);
      [|destruct H as [H _]; congruence].
    destruct (se_sections_served env); [|destruct H as [H _]; congruence].
    destruct H as [Hcreated Hstore]. rewrite Hcreated in Hc. injection Hc as <-.
    rewrite Hstore. eexists. split; [reflexivity|]. split; reflexivity.
  - intros op id st Hop.
    destruct (exec_quiet id st op Hop (world_of st)) as [_ H];
      [|exact H].
    split; [reflexivity|].
    unfold status_trace. cbn [world_of w_commits map transitions].
    destruct (status_of st id); reflexivity.
  - exact generateAllContent_transitions.
  - intros env Hg Hf. unfold run_transitions. rewrite Hg, Hf.
    destruct (upstream_fails env); reflexivity.
Qed.

Lemma status_changes_only_in_generation_witness :
  let project := mkProject 0 7 docx "EV market analysis" draft in
  let secs := [mkSection 1 0 0 "A" None false] in
  let env :=
    mkGenerateEnv true true (GenSucceeded (fun _ => "text")) true (mkLoadEnv true true) in
  transitions
    (status_trace 0 (mkStore [project] secs [] [] 2)
       (snd (run (generateAllContent env 0 (mkEditor (Some project) secs false false None ∅ ∅))
               (mkStore [project] secs [] [] 2))))
  = [(draft, generating); (generating, completed)].
Proof.
  intros project secs env.
  rewrite (proj1 (proj2 (proj2 status_changes_only_in_generation))
             env 0 (mkEditor (Some project) secs false false None ∅ ∅)
             (mkStore [project] secs [] [] 2) project draft eq_refl eq_refl).
  apply (proj2 (proj2 (proj2 status_changes_only_in_generation)) env); reflexivity.
Defined.

(** ** C8: the outline generator writes nothing *)

Lemma imap_payload_titles (project_id : Id) (pos : nat -> Z) (titles : list string) :
  map sp_title
    (imap (fun index title => mkSectionPayload project_id (trim title) (pos index)) titles)
  = map trim titles.
Proof.
  revert pos. induction titles as [|t l IH]; intros pos; [reflexivity|].
  cbn [imap map sp_title]. f_equal. apply (IH (fun i => pos (S i))).
Qed.

(** C8. An invocation of the outline generator from the Configure page
    returns, commits no statement and leaves every table as it was; of
    the page state only the list of titles (and the spinner flag) can
    change: the list becomes the outline when the topic is not blank and
    the call succeeded, and stays what it was otherwise.  The titles
    reach the store when the page is submitted: a successful submit
    inserts one section per title of the list, trimmed, in order. *)
Theorem outline_generation_writes_nothing :
  (forall (answer : FunctionsResponse (list string)) (c : ConfigureState) (w : World),
     exists c',
       fst (generateOutline answer c w) = Returned c' /\
       w_store (snd (generateOutline answer c w)) = w_store w /\
       w_commits (snd (generateOutline answer c w)) = w_commits w /\
       cf_documentType c' = cf_documentType c /\
       cf_topic c' = cf_topic c /\
       cf_loading c' = cf_loading c /\
       cf_generating c' = (if blank (cf_topic c) then cf_generating c else false) /\
       cf_sections c'
       = match answer with
         | FnData outline => if blank (cf_topic c) then cf_sections c else outline
         | FnError _ => cf_sections c
         end) /\
  (forall (user : option Id) (env : SubmitEnv) (c : ConfigureState) (st : Store)
          (project_id : Id),
     created (run (handleSubmit user env c) st) = Some project_id ->
     exists new,
       sections (final_store (run (handleSubmit user env c) st)) = sections st ++ new /\
       map s_title new = map trim (cf_sections c)).
Proof.
  split.
  - intros answer c w. unfold generateOutline, generate_outline_function.
    destruct (blank (cf_topic c)).
    + exists c. destruct answer; repeat split; reflexivity.
    + destruct answer as [outline|m]; eexists; repeat split; reflexivity.
  - intros user env c st project_id Hc.
    pose proof (handleSubmit_run user env c st) as H. cbn zeta in H.
    destruct user as [user_id|]; [|destruct H as [H _]; congruence].
    destruct (submit_valid c && se_project_served env);
      [|destruct H as [H _]; congruence].
    destruct (se_sections_served env); [|destruct H as [H _]; congruence].
    destruct H as [_ Hstore]. rewrite Hstore. unfold submitted. cbn [sections].
    eexists. split; [reflexivity|].
    destruct (number_sections_spec (S (next_id st))
                (sectionsData (next_id st) (cf_sections c))) as (_ & _ & H3).
    rewrite H3. apply imap_payload_titles.
Qed.

Lemma outline_generation_writes_nothing_witness :
  exists new,
    sections (final_store (run (handleSubmit (Some 7) (mkSubmitEnv true true)
                                  (mkConfigure pptx "EV market analysis"
                                     [" Overview"; "Outlook "] false false)) empty_store))
      = sections empty_store ++ new /\
    map s_title new = map trim [" Overview"; "Outlook "].
Proof.
  apply (proj2 outline_generation_writes_nothing
           (Some 7) (mkSubmitEnv true true)
           (mkConfigure pptx "EV market analysis" [" Overview"; "Outlook "] false false)
           empty_store 0).
  reflexivity.
Defined.

(** ** C6: feedback rows *)

(** A payload without an id, which is all the page ever sends, appends
    a row when the store applies it. *)
Lemma upsert_without_id_appends (section_id : Id) (is_liked : option bool)
    (comment : option string) (st : Store) :
  has_section st section_id = true ->
  feedback (snd (upsert_feedback (mkFeedbackPayload None section_id is_liked comment) st))
  = feedback st ++ [mkFeedback (next_id st) section_id is_liked comment].
Proof.
  intros H. unfold upsert_feedback. cbn [fp_section_id fp_id fp_is_liked fp_comment].
  rewrite H. reflexivity.
Qed.

(** C6, at the failing input: a like and then a comment on the same
    section, both applied by the store, leave two feedback rows for that
    section, the first untouched by the second call; a second like adds
    a third row. *)
Theorem feedback_rows_accumulate :
  let st := mkStore [mkProject 0 7 docx "T" completed]
              [mkSection 1 0 0 "A" (Some "text") true] [] [] 2 in
  let e := with_comments (<[1 := " nice "]> ∅) initial_editor in
  feedback (final_store (run (handleFeedback true 1 true ;;; saveComment true 1 e) st))
  = [mkFeedback 2 1 (Some true) None; mkFeedback 3 1 None (Some "nice")] /\
  feedback (final_store (run (handleFeedback true 1 true ;;; saveComment true 1 e ;;;
                              handleFeedback true 1 false) st))
  = [mkFeedback 2 1 (Some true) None; mkFeedback 3 1 None (Some "nice");
     mkFeedback 4 1 (Some false) None].
Proof. split; vm_compute; reflexivity. Qed.

(** ** C10: the list of titles *)

Lemma filter_index_length {A} (keep : nat -> bool) (index i : nat) (l : list A) :
  (forall j, keep j = negb (j =? index)) ->
  length l <= S (length (filter_index keep i l)).
Proof.
  intros Hk. revert i. induction l as [|x l IH]; intros i; cbn [filter_index length]; [lia|].
  rewrite Hk. destruct (Nat.eqb_spec i index) as [->|Hne]; cbn [negb length].
  - clear IH. assert (H : forall j, index < j -> length (filter_index keep j l) = length l).
    { induction l as [|y l IHl]; intros j Hj; [reflexivity|]. cbn [filter_index].
      rewrite Hk. destruct (Nat.eqb_spec j index); [lia|]. cbn [negb length].
      rewrite IHl; [reflexivity | lia]. }
    rewrite H; lia.
  - specialize (IH (S i)). lia.
Qed.

(** Editing by hand never empties the list of titles. *)
Lemma manual_edits_keep_a_title (c : ConfigureState) :
  cf_sections c <> [] ->
  cf_sections (addSection c) <> [] /\
  (forall index, cf_sections (removeSection index c) <> []) /\
  (forall index value, cf_sections (updateSection index value c) <> []).
Proof.
  intros Hne. repeat split.
  - unfold addSection. cbn. destruct (cf_sections c); discriminate.
  - intros index. unfold removeSection.
    destruct (Nat.ltb_spec 1 (length (cf_sections c))) as [Hlt|Hge]; [|exact Hne].
    cbn [setSections cf_sections]. intros Hnil.
    pose proof (filter_index_length (fun i => negb (i =? index)) index 0 (cf_sections c)
                  (fun j => eq_refl)) as Hlen.
    rewrite Hnil in Hlen. cbn in Hlen. lia.
  - intros index value. unfold updateSection.
    destruct (Nat.ltb_spec index (length (cf_sections c))) as [Hlt|Hge];
      cbn [setSections cf_sections]; intros Hnil.
    + apply (f_equal length) in Hnil. rewrite length_insert in Hnil.
      cbn in Hnil. lia.
    + destruct (cf_sections c); [congruence | discriminate Hnil].
Qed.

(** A submit that creates a project found no blank title in the list
    (which says nothing when the list is empty). *)
Lemma created_titles_not_blank (user : option Id) (env : SubmitEnv)
    (c : ConfigureState) (st : Store) (project_id : Id) :
  created (run (handleSubmit user env c) st) = Some project_id ->
  blank (cf_topic c) = false /\ Forall (fun t => blank t = false) (cf_sections c).
Proof.
  intros Hc. pose proof (handleSubmit_run user env c st) as H. cbn zeta in H.
  destruct user as [user_id|]; [|destruct H as [H _]; congruence].
  unfold submit_valid in H.
  destruct (blank (cf_topic c) || existsb blank (cf_sections c)) eqn:Hv;
    [destruct H as [H _]; congruence|].
  apply orb_false_iff in Hv. destruct Hv as [Ht Hs]. split; [exact Ht|].
  apply List.Forall_forall. intros t Hin.
  destruct (blank t) eqn:Hb; [|reflexivity].
  assert (existsb blank (cf_sections c) = true)
    by (apply existsb_exists; exists t; split; assumption).
  congruence.
Qed.

(** C10, at the failing input: the outline generator answers with an
    empty outline, the page replaces its list of titles by it, and the
    submit that follows passes the validation and creates a project
    without any section. *)
Theorem empty_outline_creates_project_without_sections :
  let c0 := setTopic "EV market analysis" initial_configure in
  let session :=
    c1 <- generateOutline (FnData []) c0 ;;
    handleSubmit (Some 7) (mkSubmitEnv true true) c1 in
  fst (generateOutline (FnData []) c0 (world_of empty_store))
    = Returned (mkConfigure docx "EV market analysis" [] false false) /\
  created (run session empty_store) = Some 0 /\
  projects (final_store (run session empty_store))
    = [mkProject 0 7 docx "EV market analysis" draft] /\
  sections (final_store (run session empty_store)) = [].
Proof. repeat split; vm_compute; reflexivity. Qed.

(** * Further properties *)

Lemma filter_index_remove {A} (index i : nat) (l : list A) :
  filter_index (fun j => negb (j =? index)) i l
  = if index <? i then l else take (index - i) l ++ drop (S (index - i)) l.
Proof.
  revert i. induction l as [|x l IH]; intros i; cbn [filter_index].
  - destruct (index <? i); [reflexivity|]. rewrite take_nil, drop_nil. reflexivity.
  - rewrite IH. destruct (Nat.eqb_spec i index) as [->|Hne]; cbn [negb].
    + rewrite Nat.sub_diag, Nat.ltb_irrefl. cbn [take drop app].
      destruct (Nat.ltb_spec index (S index)); [reflexivity | lia].
    + destruct (Nat.ltb_spec index i) as [Hlt|Hge];
        destruct (Nat.ltb_spec index (S i)); try lia; [reflexivity|].
      replace (index - i) with (S (index - S i)) by lia. reflexivity.
Qed.

(** X1. Removing a title removes exactly the title at the index, and
    keeps the topic and the document type; with a single title left, or
    with an index past the end, the list stays as it is. *)
Theorem removeSection_removes_the_indexed_title (index : nat) (c : ConfigureState) :
  cf_sections (removeSection index c)
  = (if (1 <? length (cf_sections c)) && (index <? length (cf_sections c))
     then take index (cf_sections c) ++ drop (S index) (cf_sections c)
     else cf_sections c) /\
  cf_topic (removeSection index c) = cf_topic c /\
  cf_documentType (removeSection index c) = cf_documentType c.
Proof.
  unfold removeSection.
  destruct (1 <? length (cf_sections c)); cbn [andb]; [|repeat split; destruct (index <? _); reflexivity].
  cbn [setSections cf_sections cf_topic cf_documentType]. repeat split.
  rewrite filter_index_remove. change (index <? 0) with false. cbn iota.
  rewrite Nat.sub_0_r.
  destruct (Nat.ltb_spec index (length (cf_sections c))); [reflexivity|].
  rewrite take_ge, drop_ge by lia. apply app_nil_r.
Qed.

(** X2. Adding a section and then removing the section just added
    gives back the page state, whenever the list had a title. *)
Theorem addSection_removeSection_round_trip (c : ConfigureState) :
  cf_sections c <> [] ->
  removeSection (length (cf_sections c)) (addSection c) = c.
Proof.
  intros Hne. destruct c as [dt topic secs l g]. cbn [cf_sections] in *.
  unfold removeSection, addSection, setSections. cbn [cf_sections cf_documentType cf_topic cf_loading cf_generating].
  rewrite length_app. cbn [length].
  destruct (Nat.ltb_spec 1 (length secs + 1)) as [_|H]; [|destruct secs; [congruence | cbn in H; lia]].
  rewrite filter_index_remove. change (length secs <? 0) with false. cbn iota.
  rewrite Nat.sub_0_r, take_app_length, drop_ge by (rewrite length_app; cbn; lia).
  rewrite app_nil_r. reflexivity.
Qed.

(** Writing a title at an index of the list changes that entry and
    no other. *)
Lemma updateSection_in_range (index : nat) (value : string) (c : ConfigureState) :
  index < length (cf_sections c) ->
  length (cf_sections (updateSection index value c)) = length (cf_sections c) /\
  cf_sections (updateSection index value c) !! index = Some value /\
  (forall j, j <> index ->
     cf_sections (updateSection index value c) !! j = cf_sections c !! j).
Proof.
  intros Hlt. unfold updateSection.
  destruct (Nat.ltb_spec index (length (cf_sections c))); [|lia].
  cbn [setSections cf_sections]. split; [apply length_insert|]. split.
  - apply list_lookup_insert_eq. exact Hlt.
  - intros j Hj. apply list_lookup_insert_ne. congruence.
Qed.

(** *** Facts about [trim] *)

Lemma rev_onto_chars (s acc : string) :
  list_ascii_of_string (string_rev_onto s acc)
  = rev (list_ascii_of_string s) ++ list_ascii_of_string acc.
Proof.
  revert acc. induction s as [|c s IH]; intros acc; [reflexivity|].
  cbn [string_rev_onto list_ascii_of_string rev]. rewrite IH, <- app_assoc. reflexivity.
Qed.

Lemma chars_inj (s t : string) :
  list_ascii_of_string s = list_ascii_of_string t -> s = t.
Proof.
  intros H. rewrite <- (string_of_list_ascii_of_string s),
    <- (string_of_list_ascii_of_string t), H. reflexivity.
Qed.

Lemma rev_onto_involutive (s : string) :
  string_rev_onto (string_rev_onto s "") "" = s.
Proof.
  apply chars_inj. rewrite !rev_onto_chars. cbn [list_ascii_of_string].
  rewrite !app_nil_r. apply rev_involutive.
Qed.

Lemma first_is_space_chars (s : string) :
  first_is_space s
  = match list_ascii_of_string s with a :: _ => is_space a | [] => false end.
Proof. destruct s; reflexivity. Qed.

Lemma trim_start_spec (s : string) :
  first_is_space (trim_start s) = false /\
  exists ws, list_ascii_of_string s = ws ++ list_ascii_of_string (trim_start s).
Proof.
  induction s as [|c s [IH1 [ws IH2]]]; [split; [reflexivity | exists []; reflexivity]|].
  cbn [trim_start]. destruct (is_space c) eqn:E.
  - split; [exact IH1|]. exists (c :: ws). cbn [list_ascii_of_string app]. rewrite IH2.
    reflexivity.
  - split; [cbn; exact E | exists []; reflexivity].
Qed.

Lemma trim_start_fixed (s : string) :
  first_is_space s = false -> trim_start s = s.
Proof. destruct s as [|c s]; [reflexivity|]. cbn. intros ->. reflexivity. Qed.

Lemma trim_trimmed (s : string) :
  first_is_space (trim s) = false /\ last_is_space (trim s) = false.
Proof.
  unfold trim, last_is_space.
  destruct (trim_start_spec s) as [Hu _].
  destruct (trim_start_spec (string_rev_onto (trim_start s) "")) as [Ht [ws Hws]].
  set (u := trim_start s) in *.
  set (t := trim_start (string_rev_onto u "")) in *.
  split; [|rewrite rev_onto_involutive; exact Ht].
  rewrite first_is_space_chars, rev_onto_chars. cbn [list_ascii_of_string].
  rewrite app_nil_r.
  rewrite rev_onto_chars in Hws. cbn [list_ascii_of_string] in Hws.
  rewrite app_nil_r in Hws.
  apply (f_equal (@rev ascii)) in Hws. rewrite rev_involutive, rev_app_distr in Hws.
  rewrite first_is_space_chars, Hws in Hu.
  destruct (rev (list_ascii_of_string t)) as [|a l]; [reflexivity | exact Hu].
Qed.

Lemma trim_idempotent (s : string) : trim (trim s) = trim s.
Proof.
  destruct (trim_trimmed s) as [Hf Hl]. unfold last_is_space in Hl.
  unfold trim at 1. rewrite (trim_start_fixed _ Hf), (trim_start_fixed _ Hl).
  apply rev_onto_involutive.
Qed.

(** *** Submitting the Configure form *)

Lemma handleSubmit_rejected (user : option Id) (env : SubmitEnv) (c : ConfigureState)
    (w : World) :
  submit_valid c = false \/ user = None ->
  handleSubmit user env c w
  = (Returned ((if submit_valid c then setLoading false c else c), None),
     mkWorld (w_store w) (w_commits w)
       (w_toasts w
          ++ [toast_error (if submit_valid c
                           then "You must be logged in to create a project"
                           else "Please fill in all fields")])).
Proof.
  unfold submit_valid, handleSubmit.
  destruct (blank (cf_topic c) || existsb blank (cf_sections c)); cbn [negb].
  - intros _. reflexivity.
  - intros [H| ->]; [discriminate H | reflexivity].
Qed.

Lemma addSection_invalid (c : ConfigureState) : submit_valid (addSection c) = false.
Proof.
  unfold submit_valid, addSection. cbn [setSections cf_sections cf_topic].
  rewrite existsb_app. cbn [existsb]. change (blank "") with true.
  rewrite orb_true_r, orb_true_r. reflexivity.
Qed.

(** Right after adding a section the form cannot be submitted. *)
Lemma submit_after_addSection_is_rejected (user : option Id) (env : SubmitEnv)
    (c : ConfigureState) (w : World) :
  handleSubmit user env (addSection c) w
  = (Returned (addSection c, None),
     mkWorld (w_store w) (w_commits w)
       (w_toasts w ++ [toast_error "Please fill in all fields"])).
Proof.
  rewrite (handleSubmit_rejected user env (addSection c) w)
    by (left; apply addSection_invalid).
  rewrite addSection_invalid. reflexivity.
Qed.

(** X3. A submit with a blank topic or a blank title, or without a
    logged-in user, issues no statement: the store and the log of
    commits are as before, nothing is created, and exactly one error
    toast is shown; the validation of the form comes before the check
    of the login. *)
Theorem rejected_submit_writes_nothing (user : option Id) (env : SubmitEnv)
    (c : ConfigureState) (w : World) :
  submit_valid c = false \/ user = None ->
  fst (handleSubmit user env c w)
  = Returned ((if submit_valid c then setLoading false c else c), None) /\
  w_store (snd (handleSubmit user env c w)) = w_store w /\
  w_commits (snd (handleSubmit user env c w)) = w_commits w /\
  w_toasts (snd (handleSubmit user env c w))
  = w_toasts w
    ++ [toast_error (if submit_valid c
                     then "You must be logged in to create a project"
                     else "Please fill in all fields")].
Proof.
  intros H. rewrite (handleSubmit_rejected user env c w H). repeat split.
Qed.

Lemma rejected_submit_writes_nothing_witness :
  w_store (snd (handleSubmit None (mkSubmitEnv true true)
                  (mkConfigure docx "EV market analysis" ["A"] false false)
                  (world_of empty_store)))
  = empty_store.
Proof.
  apply (rejected_submit_writes_nothing None (mkSubmitEnv true true)
           (mkConfigure docx "EV market analysis" ["A"] false false)
           (world_of empty_store)).
  right. reflexivity.
Defined.

Lemma number_sections_fresh (first : Id) (rows : list SectionPayload) :
  map s_id (number_sections first rows) = seq first (length rows) /\
  Forall (fun s => s_content s = None /\ s_is_generated s = false)
         (number_sections first rows).
Proof.
  revert first. induction rows as [|r rows IH]; intros first; [split; [reflexivity|constructor]|].
  destruct (IH (S first)) as [H1 H2]. cbn [number_sections map length seq s_id].
  rewrite H1. split; [reflexivity|]. constructor; [split; reflexivity | exact H2].
Qed.

Lemma sectionsData_length (project_id : Id) (titles : list string) :
  length (sectionsData project_id titles) = length titles.
Proof. unfold sectionsData. apply length_imap. Qed.

(** X4. A submit that creates a project adds exactly one project
    row, owned by the user, with the chosen document type and the
    trimmed topic, and one section row per title, each with a fresh id,
    a null content and a lowered generated flag; the audit and feedback
    tables are as before. *)
Theorem successful_submit_adds_one_project_and_its_sections
    (user : option Id) (env : SubmitEnv) (c : ConfigureState) (st : Store)
    (project_id : Id) :
  created (run (handleSubmit user env c) st) = Some project_id ->
  let st' := final_store (run (handleSubmit user env c) st) in
  exists user_id new,
    user = Some user_id /\
    project_id = next_id st /\
    projects st'
    = projects st
      ++ [mkProject project_id user_id (cf_documentType c) (trim (cf_topic c)) draft] /\
    sections st' = sections st ++ new /\
    length new = length (cf_sections c) /\
    map s_id new = seq (S project_id) (length (cf_sections c)) /\
    Forall (fun s => s_content s = None /\ s_is_generated s = false) new /\
    refinement_history st' = refinement_history st /\
    feedback st' = feedback st.
Proof.
  intros Hc st'. subst st'.
  pose proof (handleSubmit_run user env c st) as H. cbn zeta in H.
  destruct user as [user_id|]; [|destruct H as [H _]; congruence].
  destruct (submit_valid c && se_project_served env);
    [|destruct H as [H _]; congruence].
  destruct (se_sections_served env); [|destruct H as [H _]; congruence].
  destruct H as [Hcreated Hstore]. rewrite Hcreated in Hc. injection Hc as <-.
  rewrite Hstore. unfold submitted. cbn [projects sections refinement_history feedback].
  destruct (number_sections_fresh (S (next_id st))
              (sectionsData (next_id st) (cf_sections c))) as [Hids Hfresh].
  rewrite sectionsData_length in Hids.
  exists user_id, (number_sections (S (next_id st)) (sectionsData (next_id st) (cf_sections c))).
  repeat split; try assumption; try reflexivity.
  rewrite <- (length_map s_id), Hids, length_seq. reflexivity.
Qed.

Lemma successful_submit_adds_one_project_and_its_sections_witness :
  exists user_id new,
    Some 7 = Some user_id /\
    0 = next_id empty_store /\
    projects (final_store (run (handleSubmit (Some 7) (mkSubmitEnv true true)
                (mkConfigure pptx " EV market analysis " ["A"; "B"] false false))
                empty_store))
    = projects empty_store ++ [mkProject 0 user_id pptx (trim " EV market analysis ") draft] /\
    sections (final_store (run (handleSubmit (Some 7) (mkSubmitEnv true true)
                (mkConfigure pptx " EV market analysis " ["A"; "B"] false false))
                empty_store))
    = sections empty_store ++ new /\
    length new = 2 /\
    map s_id new = seq 1 2 /\
    Forall (fun s => s_content s = None /\ s_is_generated s = false) new /\
    refinement_history (final_store (run (handleSubmit (Some 7) (mkSubmitEnv true true)
                (mkConfigure pptx " EV market analysis " ["A"; "B"] false false))
                empty_store)) = [] /\
    feedback (final_store (run (handleSubmit (Some 7) (mkSubmitEnv true true)
                (mkConfigure pptx " EV market analysis " ["A"; "B"] false false))
                empty_store)) = [].
Proof.
  apply (successful_submit_adds_one_project_and_its_sections (Some 7) (mkSubmitEnv true true)
           (mkConfigure pptx " EV market analysis " ["A"; "B"] false false) empty_store 0).
  reflexivity.
Defined.

(** X5. The topic and the titles that a successful submit stores are
    not empty and neither start nor end with white space. *)
Theorem stored_topic_and_titles_are_trimmed
    (user : option Id) (env : SubmitEnv) (c : ConfigureState) (st : Store)
    (project_id : Id) :
  created (run (handleSubmit user env c) st) = Some project_id ->
  let st' := final_store (run (handleSubmit user env c) st) in
  let clean := fun t : string =>
    t <> "" /\ first_is_space t = false /\ last_is_space t = false in
  exists row new,
    projects st' = projects st ++ [row] /\ clean (p_topic row) /\
    sections st' = sections st ++ new /\ Forall (fun s => clean (s_title s)) new.
Proof.
  intros Hc st' clean. subst st'.
  destruct (created_titles_not_blank user env c st project_id Hc) as [Ht Hs].
  pose proof (handleSubmit_run user env c st) as H. cbn zeta in H.
  destruct user as [user_id|]; [|destruct H as [H _]; congruence].
  destruct (submit_valid c && se_project_served env);
    [|destruct H as [H _]; congruence].
  destruct (se_sections_served env); [|destruct H as [H _]; congruence].
  destruct H as [_ Hstore]. rewrite Hstore. unfold submitted.
  cbn [projects sections].
  assert (Hclean : forall t, blank t = false -> clean (trim t)).
  { intros t Hb. subst clean. cbn beta. destruct (trim_trimmed t) as [H1 H2].
    split; [|split; assumption]. unfold blank in Hb.
    destruct (trim t); [discriminate Hb | discriminate]. }
  eexists _, _. split; [reflexivity|]. split; [apply Hclean, Ht|].
  split; [reflexivity|].
  destruct (number_sections_spec (S (next_id st))
              (sectionsData (next_id st) (cf_sections c))) as (_ & _ & H3).
  apply List.Forall_forall. intros s Hin.
  apply (List.in_map s_title) in Hin. rewrite H3 in Hin.
  unfold sectionsData in Hin. rewrite imap_payload_titles in Hin.
  apply List.in_map_iff in Hin. destruct Hin as (t & <- & Hin).
  rewrite List.Forall_forall in Hs. apply Hclean, Hs, Hin.
Qed.

Lemma stored_topic_and_titles_are_trimmed_witness :
  exists row new,
    projects (final_store (run (handleSubmit (Some 7) (mkSubmitEnv true true)
                (mkConfigure docx "  EV market analysis " [" A"; "B  "] false false))
                empty_store))
    = projects empty_store ++ [row] /\
    (p_topic row <> "" /\ first_is_space (p_topic row) = false /\
     last_is_space (p_topic row) = false) /\
    sections (final_store (run (handleSubmit (Some 7) (mkSubmitEnv true true)
                (mkConfigure docx "  EV market analysis " [" A"; "B  "] false false))
                empty_store))
    = sections empty_store ++ new /\
    Forall (fun s => s_title s <> "" /\ first_is_space (s_title s) = false /\
                     last_is_space (s_title s) = false) new.
Proof.
  apply (stored_topic_and_titles_are_trimmed (Some 7) (mkSubmitEnv true true)
           (mkConfigure docx "  EV market analysis " [" A"; "B  "] false false)
           empty_store 0).
  reflexivity.
Defined.

(** *** The answer of the refine-content endpoint *)

Lemma db_call_returns {A} (served : bool) (stmt : Store -> PgResult A * Store) (w : World) :
  exists r, fst (db_call served stmt w) = Returned r.
Proof.
  unfold db_call. destruct served; [|eexists; reflexivity].
  destruct (stmt (w_store w)) as [[a|m] st']; eexists; reflexivity.
Qed.

Lemma refine_content_answer (env : RefineEnv) (method : Method)
    (body : option RefineRequest) (w : World) :
  fst (refine_content env method body w)
  = Returned
      match method with
      | OPTIONS => RespPreflight
      | POST =>
          match body with
          | None => RespFailure "Unexpected end of JSON input"
          | Some _ =>
              if api_key_configured env then
                match re_ai env with
                | AiFetchFailed => RespFailure "error sending request"
                | AiNotOk statusText => RespFailure ("AI API error: " +:+ statusText)
                | AiMalformed => RespFailure "Cannot read properties of undefined"
                | AiOk refinedContent => RespSuccess refinedContent
                end
              else RespFailure "LOVABLE_API_KEY not configured"
          end
      end.
Proof.
  unfold refine_content, api_key_configured, try_catch, bind, throw, ret.
  destruct method; [reflexivity|].
  destruct body as [rq|]; [|reflexivity].
  destruct (re_api_key env) as [[|c k]|]; try reflexivity.
  destruct (re_ai env); try reflexivity.
  destruct (db_call_returns (re_history_served env)
              (insert_refinement (rq_sectionId rq) (rq_prompt rq) (rq_currentContent rq) content)
              w) as [r1 H1].
  destruct (db_call (re_history_served env) _ w) as [[a|e] w1]; [|discriminate H1].
  destruct (db_call_returns (re_section_served env)
              (update_section_content (rq_sectionId rq) content) w1) as [r2 H2].
  destruct (db_call (re_section_served env) _ w1) as [[a'|e'] w2]; [|discriminate H2].
  reflexivity.
Qed.

(** X6. The refine-content endpoint answers [{ success: true,
    content }] exactly when the request is a POST with a JSON body, the
    API key is configured and the upstream reply is OK with that
    content. *)
Theorem refine_answers_success_iff (env : RefineEnv) (method : Method)
    (body : option RefineRequest) (w : World) (content : string) :
  fst (refine_content env method body w) = Returned (RespSuccess content)
  <-> method = POST /\ body <> None /\ api_key_configured env = true /\
      re_ai env = AiOk content.
Proof.
  rewrite refine_content_answer. split.
  - destruct method; [discriminate|]. destruct body; [|discriminate].
    destruct (api_key_configured env); [|discriminate].
    destruct (re_ai env); try discriminate.
    intros H. injection H as ->. repeat split. discriminate.
  - intros (-> & Hb & -> & ->). destruct body; [reflexivity | congruence].
Qed.

(** X7. The refine-content endpoint always answers.  A preflight
    request is answered without any effect.  Without a configured API
    key the answer is the configuration error, whatever the upstream
    would reply, and a non-OK upstream reply is answered with its status
    text; both leave the world as it was. *)
Theorem refine_always_answers (env : RefineEnv) (method : Method)
    (body : option RefineRequest) (w : World) :
  (exists resp, fst (refine_content env method body w) = Returned resp) /\
  (method = OPTIONS -> refine_content env method body w = (Returned RespPreflight, w)) /\
  (method = POST -> body <> None -> api_key_configured env = false ->
   refine_content env method body w
   = (Returned (RespFailure "LOVABLE_API_KEY not configured"), w)) /\
  (forall statusText,
     method = POST -> body <> None -> api_key_configured env = true ->
     re_ai env = AiNotOk statusText ->
     refine_content env method body w
     = (Returned (RespFailure ("AI API error: " +:+ statusText)), w)).
Proof.
  split; [rewrite refine_content_answer; eexists; reflexivity|].
  split; [intros ->; reflexivity|]. split.
  - intros -> Hb Hk. destruct body as [rq|]; [|congruence].
    unfold api_key_configured in Hk. unfold refine_content, try_catch, throw.
    destruct (re_api_key env) as [[|c k]|]; [reflexivity | discriminate Hk | reflexivity].
  - intros statusText -> Hb Hk Ha. destruct body as [rq|]; [|congruence].
    unfold api_key_configured in Hk. unfold refine_content, try_catch, throw.
    destruct (re_api_key env) as [[|c k]|]; try discriminate Hk.
    rewrite Ha. reflexivity.
Qed.

(** *** What no operation does *)

Lemma history_grows_refl (st : Store) : history_grows st st.
Proof. exists []. rewrite app_nil_r. reflexivity. Qed.

Lemma history_grows_trans (a b c : Store) :
  history_grows a b -> history_grows b c -> history_grows a c.
Proof. intros [x Hx] [y Hy]. exists (x ++ y). rewrite Hy, Hx, <- app_assoc. reflexivity. Qed.

Lemma history_grows_same (st st' : Store) :
  refinement_history st' = refinement_history st -> history_grows st st'.
Proof. intros H. exists []. rewrite H, app_nil_r. reflexivity. Qed.

(** X9. No sequence of operations changes or removes an audit row:
    the refinement_history table only grows at its end. *)
Theorem refinement_history_is_append_only (ops : list Op) (st : Store) :
  history_grows st (final_store (run (exec_all ops) st)).
Proof.
  apply exec_all_frame.
  - exact history_grows_refl.
  - exact history_grows_trans.
  - intros u dt t s s0. apply history_grows_same. reflexivity.
  - intros rows s0. unfold insert_sections.
    destruct (forallb _ rows); apply history_grows_same; reflexivity.
  - intros id s s0. apply history_grows_same. reflexivity.
  - intros id c s0. apply history_grows_same. reflexivity.
  - intros sid p prev new s0. unfold insert_refinement.
    destruct (has_section s0 sid); [eexists; reflexivity | apply history_grows_refl].
  - intros pl s0. unfold upsert_feedback.
    destruct (negb _); [apply history_grows_refl|].
    destruct (fp_id pl); [destruct (existsb _ _)|]; apply history_grows_same; reflexivity.
  - intros listed f s0. apply history_grows_same. reflexivity.
Qed.

Lemma projects_grow_same (st st' : Store) :
  map project_core (projects st') = map project_core (projects st) -> projects_grow st st'.
Proof. intros H. exists []. rewrite H, app_nil_r. reflexivity. Qed.

Lemma projects_grow_trans (a b c : Store) :
  projects_grow a b -> projects_grow b c -> projects_grow a c.
Proof. intros [x Hx] [y Hy]. exists (x ++ y). rewrite Hy, Hx, <- app_assoc. reflexivity. Qed.

(** X10. No sequence of operations removes a project or changes its
    owner, document type or topic: but for the status, the projects
    table only grows at its end. *)
Theorem projects_keep_owner_type_and_topic (ops : list Op) (st : Store) :
  projects_grow st (final_store (run (exec_all ops) st)).
Proof.
  apply exec_all_frame.
  - intros s. apply projects_grow_same. reflexivity.
  - exact projects_grow_trans.
  - intros u dt t s s0. eexists. cbn [snd insert_project projects].
    rewrite List.map_app. reflexivity.
  - intros rows s0. unfold insert_sections.
    destruct (forallb _ rows); apply projects_grow_same; reflexivity.
  - intros id s s0. apply projects_grow_same.
    cbn [snd update_project_status set_status projects].
    rewrite List.map_map. apply List.map_ext. intros p.
    destruct (Nat.eqb (p_id p) id); reflexivity.
  - intros id c s0. apply projects_grow_same. reflexivity.
  - intros sid p prev new s0. unfold insert_refinement.
    destruct (has_section s0 sid); apply projects_grow_same; reflexivity.
  - intros pl s0. unfold upsert_feedback.
    destruct (negb _); [apply projects_grow_same; reflexivity|].
    destruct (fp_id pl); [destruct (existsb _ _)|]; apply projects_grow_same; reflexivity.
  - intros listed f s0. apply projects_grow_same. reflexivity.
Qed.










Lemma feedback_grows_same (st st' : Store) :
  feedback st' = feedback st -> feedback_grows st st'.
Proof. intros H. exists []. rewrite H, app_nil_r. reflexivity. Qed.

Lemma feedback_grows_trans (a b c : Store) :
  feedback_grows a b -> feedback_grows b c -> feedback_grows a c.
Proof. intros [x Hx] [y Hy]. exists (x ++ y). rewrite Hy, Hx, <- app_assoc. reflexivity. Qed.

Lemma upsert_without_id_grows (section_id : Id) (is_liked : option bool)
    (comment : option string) :
  respects feedback_grows
    (upsert_feedback (mkFeedbackPayload None section_id is_liked comment)).
Proof.
  intros st. unfold upsert_feedback. cbn [fp_id fp_section_id].
  destruct (negb _); [apply feedback_grows_same; reflexivity|].
  eexists. reflexivity.
Qed.

Lemma exec_feedback_grows (st0 : Store) (op : Op) :
  keeps (related feedback_grows st0) (exec op).
Proof.
  destruct op; cbn [exec];
    unfold handleSubmit, generateOutline, generate_outline_function,
      generateAllContent, invoke_generate_content, generate_content_function,
      refineSection, invoke_refine_content, refine_content, handleFeedback,
      saveComment, exportDocument, loadProject;
    repeat (first
      [ apply keeps_toast; [apply related_toasts]
      | apply keeps_db_call; apply (respects_keeps feedback_grows feedback_grows_trans)
      | keeps_step ]);
    try apply upsert_without_id_grows;
    intros st; apply feedback_grows_same;
    unfold insert_sections, insert_refinement;
    repeat case_match; reflexivity.
Qed.

(** X12. No sequence of operations changes or removes a feedback
    row: the page never sends an id with its upserts, so the feedback
    table only grows at its end. *)
Theorem feedback_is_append_only (ops : list Op) (st : Store) :
  feedback_grows st (final_store (run (exec_all ops) st)).
Proof.
  assert (H : keeps (related feedback_grows st) (exec_all ops)).
  { induction ops as [|op ops IH]; cbn [exec_all foldr].
    - apply keeps_ret.
    - apply keeps_bind; [apply exec_feedback_grows | intros _; exact IH]. }
  apply (H (world_of st)). apply feedback_grows_same. reflexivity.
Qed.

(** *** Referential integrity *)

Lemma has_project_in (st : Store) (id : Id) :
  has_project st id = true <-> In id (map p_id (projects st)).
Proof.
  unfold has_project. rewrite existsb_exists, List.in_map_iff. split.
  - intros (p & Hin & E). apply Nat.eqb_eq in E. exists p. split; assumption.
  - intros (p & E & Hin). exists p. split; [exact Hin | apply Nat.eqb_eq, E].
Qed.

Lemma has_section_in (st : Store) (id : Id) :
  has_section st id = true <-> In id (map s_id (sections st)).
Proof.
  unfold has_section. rewrite existsb_exists, List.in_map_iff. split.
  - intros (p & Hin & E). apply Nat.eqb_eq in E. exists p. split; assumption.
  - intros (p & E & Hin). exists p. split; [exact Hin | apply Nat.eqb_eq, E].
Qed.

(** References stay valid when the ids of the referenced tables only
    grow and the referring rows stay the same. *)
Lemma fk_ok_extend (st st' : Store) :
  (forall id, In id (map p_id (projects st)) -> In id (map p_id (projects st'))) ->
  (forall id, In id (map s_id (sections st)) -> In id (map s_id (sections st'))) ->
  (forall s, In s (sections st') ->
     In s (sections st) \/ has_project st' (s_project_id s) = true \/
     exists s0, In s0 (sections st) /\ s_project_id s0 = s_project_id s) ->
  (forall r, In r (refinement_history st') ->
     In r (refinement_history st) \/ has_section st' (r_section_id r) = true) ->
  (forall f, In f (feedback st') ->
     In f (feedback st) \/ has_section st' (f_section_id f) = true) ->
  fk_ok st -> fk_ok st'.
Proof.
  intros Hp Hs Hsec Hhist Hfb (F1 & F2 & F3).
  rewrite List.Forall_forall in F1, F2, F3.
  unfold fk_ok. rewrite !List.Forall_forall. repeat split.
  - intros s Hin. destruct (Hsec s Hin) as [H|[H|(s0 & H0 & E)]]; [|exact H|].
    + apply has_project_in, Hp, has_project_in, F1, H.
    + rewrite <- E. apply has_project_in, Hp, has_project_in, F1, H0.
  - intros r Hin. destruct (Hhist r Hin) as [H|H]; [|exact H].
    apply has_section_in, Hs, has_section_in, F2, H.
  - intros f Hin. destruct (Hfb f Hin) as [H|H]; [|exact H].
    apply has_section_in, Hs, has_section_in, F3, H.
Qed.

Lemma map_ids_update {A} (key : A -> Id) (f : A -> A) (l : list A) :
  (forall a, key (f a) = key a) -> map key (map f l) = map key l.
Proof. intros H. rewrite List.map_map. apply List.map_ext. exact H. Qed.

Lemma fk_insert_project (u : Id) (dt : DocumentType) (t : string) (s : Status) (st : Store) :
  fk_ok st -> fk_ok (snd (insert_project u dt t s st)).
Proof.
  apply fk_ok_extend; cbn [snd insert_project projects sections refinement_history feedback].
  - intros id H. rewrite List.map_app. apply in_or_app. left. exact H.
  - auto.
  - auto.
  - auto.
  - auto.
Qed.

Lemma fk_insert_sections (rows : list SectionPayload) (st : Store) :
  fk_ok st -> fk_ok (snd (insert_sections rows st)).
Proof.
  unfold insert_sections. destruct (forallb _ rows) eqn:Hfk; [|auto].
  apply fk_ok_extend; cbn [snd projects sections refinement_history feedback]; auto.
  - intros id H. rewrite List.map_app. apply in_or_app. left. exact H.
  - intros s Hin. apply in_app_or in Hin. destruct Hin as [H|H]; [left; exact H|].
    right. left. unfold has_project. cbn [projects]. fold (has_project st (s_project_id s)).
    rewrite forallb_forall in Hfk.
    destruct (number_sections_spec (next_id st) rows) as (_ & H2 & _).
    apply (List.in_map s_project_id) in H. rewrite H2 in H.
    apply List.in_map_iff in H. destruct H as (r & <- & Hr). apply Hfk, Hr.
Qed.

Lemma fk_update_project_status (id : Id) (s : Status) (st : Store) :
  fk_ok st -> fk_ok (snd (update_project_status id s st)).
Proof.
  apply fk_ok_extend;
    cbn [snd update_project_status set_status projects sections refinement_history feedback];
    auto.
  intros i H. rewrite map_ids_update; [exact H|].
  intros p. destruct (Nat.eqb (p_id p) id); reflexivity.
Qed.

Lemma fk_map_sections (f : SectionRow -> SectionRow) (st st' : Store) :
  projects st' = projects st -> sections st' = map f (sections st) ->
  refinement_history st' = refinement_history st -> feedback st' = feedback st ->
  (forall s, s_id (f s) = s_id s /\ s_project_id (f s) = s_project_id s) ->
  fk_ok st -> fk_ok st'.
Proof.
  intros Hp Hs Hh Hf Hkey. apply fk_ok_extend; rewrite ?Hp, ?Hs, ?Hh, ?Hf; auto.
  - intros id H. rewrite map_ids_update; [exact H | intros a; apply Hkey].
  - intros s Hin. apply List.in_map_iff in Hin. destruct Hin as (s0 & <- & H0).
    right. right. exists s0. split; [exact H0 | symmetry; apply Hkey].
Qed.

Lemma fk_update_section_content (id : Id) (c : string) (st : Store) :
  fk_ok st -> fk_ok (snd (update_section_content id c st)).
Proof.
  eapply fk_map_sections; try reflexivity.
  intros s. cbn beta. destruct (Nat.eqb (s_id s) id); split; reflexivity.
Qed.

Lemma fk_set_generated (listed : list (Id * string)) (f : Id -> string) (st : Store) :
  fk_ok st -> fk_ok (snd (set_generated listed f st)).
Proof.
  eapply fk_map_sections; try reflexivity.
  intros s. cbn beta. destruct (existsb _ listed); split; reflexivity.
Qed.

Lemma fk_insert_refinement (sid : Id) (p : string) (prev : option string) (new : string)
    (st : Store) :
  fk_ok st -> fk_ok (snd (insert_refinement sid p prev new st)).
Proof.
  unfold insert_refinement. destruct (has_section st sid) eqn:Hs; [|auto].
  apply fk_ok_extend; cbn [snd projects sections refinement_history feedback]; auto.
  intros r Hin. apply in_app_or in Hin. destruct Hin as [H|[<-|[]]]; [left; exact H|].
  right. exact Hs.
Qed.

Lemma fk_upsert_feedback (pl : FeedbackPayload) (st : Store) :
  fk_ok st -> fk_ok (snd (upsert_feedback pl st)).
Proof.
  unfold upsert_feedback. destruct (has_section st (fp_section_id pl)) eqn:Hs; cbn [negb]; [|auto].
  destruct (fp_id pl) as [i|]; [destruct (existsb _ (feedback st))|];
    apply fk_ok_extend; cbn [snd projects sections refinement_history feedback]; auto.
  - intros f Hin. apply List.in_map_iff in Hin. destruct Hin as (f0 & <- & H0).
    destruct (Nat.eqb (f_id f0) i); [right; exact Hs | left; exact H0].
  - intros f Hin. apply in_app_or in Hin. destruct Hin as [H|[<-|[]]]; [left; exact H|].
    right. exact Hs.
  - intros f Hin. apply in_app_or in Hin. destruct Hin as [H|[<-|[]]]; [left; exact H|].
    right. exact Hs.
Qed.

(** X13. From a store in which every section refers to a project and
    every audit row and feedback row refers to a section, every sequence
    of operations leads to such a store. *)
Theorem references_stay_valid (ops : list Op) (st : Store) :
  fk_ok st -> fk_ok (final_store (run (exec_all ops) st)).
Proof.
  apply (exec_all_frame (fun a b => fk_ok a -> fk_ok b)).
  - auto.
  - auto.
  - intros u dt t s s0. apply fk_insert_project.
  - intros rows s0. apply fk_insert_sections.
  - intros id s s0. apply fk_update_project_status.
  - intros id c s0. apply fk_update_section_content.
  - intros sid p prev new s0. apply fk_insert_refinement.
  - intros pl s0. apply fk_upsert_feedback.
  - intros listed f s0. apply fk_set_generated.
Qed.

(** *** What a refine call leaves alone *)

Lemma refined_row_refl (sectionId : Id) (l : list SectionRow) :
  Forall2 (refined_row sectionId) l l.
Proof. induction l; constructor; [repeat split | assumption]. Qed.

Lemma refined_row_set_content (sectionId : Id) (c : string) (st : Store) :
  Forall2 (refined_row sectionId) (sections st) (sections (set_content sectionId c st)).
Proof.
  unfold set_content. cbn [sections].
  induction (sections st) as [|s l IH]; cbn [map]; constructor; [|exact IH].
  destruct (Nat.eqb_spec (s_id s) sectionId) as [E|E]; repeat split. congruence.
Qed.

(** X8. A refine call leaves the projects and feedback tables as
    they are, appends at most one audit row, and changes nothing of the
    sections table but the content of the section it names. *)
Theorem refine_changes_one_content_only (env : RefineEnv) (rq : RefineRequest) (w : World) :
  let st := w_store w in
  let st' := w_store (snd (refine_content env POST (Some rq) w)) in
  projects st' = projects st /\
  feedback st' = feedback st /\
  Forall2 (refined_row (rq_sectionId rq)) (sections st) (sections st') /\
  exists added, refinement_history st' = refinement_history st ++ added /\ length added <= 1.
Proof.
  cbn zeta. unfold refine_content, try_catch, bind, throw, ret, db_call,
    update_section_content, insert_refinement.
  assert (Hsame : projects (w_store w) = projects (w_store w) /\
            feedback (w_store w) = feedback (w_store w) /\
            Forall2 (refined_row (rq_sectionId rq)) (sections (w_store w)) (sections (w_store w)) /\
            exists added, refinement_history (w_store w) = refinement_history (w_store w) ++ added /\
                          length added <= 1).
  { repeat split; [apply refined_row_refl|]. exists []. rewrite app_nil_r. cbn. split; [reflexivity | lia]. }
  destruct (re_api_key env) as [[|c k]|]; try exact Hsame.
  destruct (re_ai env) as [| | |content]; try exact Hsame.
  destruct (re_history_served env), (re_section_served env);
    destruct (has_section (w_store w) (rq_sectionId rq));
    cbn [fst snd w_store w_commits w_toasts projects feedback sections refinement_history set_content];
    try exact Hsame.
  all: repeat split;
    try apply refined_row_refl;
    try apply (refined_row_set_content (rq_sectionId rq) content (w_store w));
    first [ exists []; rewrite app_nil_r; cbn; split; [reflexivity | lia]
          | eexists; split; [reflexivity | cbn; lia] ].
Qed.

(** *** Loading a project *)

Lemma insert_by_order_perm (s : SectionRow) (l : list SectionRow) :
  Permutation (insert_by_order s l) (s :: l).
Proof.
  induction l as [|t l IH]; cbn [insert_by_order]; [reflexivity|].
  destruct (Z.leb _ _); [reflexivity|].
  rewrite IH. apply perm_swap.
Qed.

Lemma order_by_order_index_perm (l : list SectionRow) :
  Permutation (order_by_order_index l) l.
Proof.
  unfold order_by_order_index. induction l as [|s l IH]; cbn [foldr]; [reflexivity|].
  rewrite insert_by_order_perm, IH. reflexivity.
Qed.

(** X15. The sections the editor loads are the section rows of the
    project, each of them once and none of another project. *)
Theorem select_sections_are_the_sections_of_the_project (id : Id) (st : Store) :
  Permutation (select_sections id st)
    (List.filter (fun s => Nat.eqb (s_project_id s) id) (sections st)) /\
  (forall s, In s (select_sections id st) <-> In s (sections st) /\ s_project_id s = id) /\
  length (select_sections id st)
  = length (List.filter (fun s => Nat.eqb (s_project_id s) id) (sections st)).
Proof.
  pose proof (order_by_order_index_perm
                (List.filter (fun s => Nat.eqb (s_project_id s) id) (sections st))) as H.
  fold (select_sections id st) in H. split; [exact H|]. split.
  - intros s. split.
    + intros Hin. apply (Permutation_in _ H), List.filter_In in Hin.
      destruct Hin as [Hin E]. apply Nat.eqb_eq in E. split; assumption.
    + intros [Hin E]. apply (Permutation_in _ (Permutation_sym H)).
      apply List.filter_In. split; [exact Hin | apply Nat.eqb_eq, E].
  - apply Permutation_length, H.
Qed.



(** *** The bulk generation *)

Lemma generateAllContent_succeeded (env : GenerateEnv) (id : Id) (e : EditorState)
    (st : Store) (project : ProjectRow) (content_of' : Id -> string) :
  ed_project e = Some project ->
  ge_reached env = true ->
  ge_reply env = GenSucceeded content_of' ->
  final_store (run (generateAllContent env id e) st)
  = let st1 := if ge_generating_served env then set_status id generating st else st in
    let st2 := mark_generated (map (fun s => (s_id s, s_title s)) (ed_sections e))
                 content_of' st1 in
    if ge_final_served env then set_status id completed st2 else st2.
Proof.
  intros Hp Hr Hreply. unfold generateAllContent. rewrite Hp.
  destruct env as [g r reply f reload].
  cbn [ge_generating_served ge_reached ge_reply ge_final_served ge_reload] in *.
  subst r reply.
  unfold final_store, run, invoke_generate_content, generate_content_function.
  cbn [ge_reached ge_reply].
  unfold bind, try_catch, db_call, ret, throw, toast, update_project_status, set_generated.
  destruct g, f;
    cbn -[set_status mark_generated loadProject];
    match goal with
    | |- context [loadProject ?a ?b ?c ?w] =>
        destruct (loadProject_world a b c w) as (e2 & ts & ->)
    end; reflexivity.
Qed.

(** X17. For every run of the bulk generation in which the upstream
    call succeeds and the store serves the update to 'completed', the
    status of the project afterwards is 'completed', whether or not the
    update to 'generating' had been applied. *)
Theorem successful_generation_completes_when_served
    (env : GenerateEnv) (id : Id) (e : EditorState) (st : Store)
    (project : ProjectRow) (s0 : Status) :
  ed_project e = Some project ->
  status_of st id = Some s0 ->
  upstream_fails env = false ->
  ge_final_served env = true ->
  status_of (final_store (run (generateAllContent env id e) st)) id = Some completed.
Proof.
  intros Hp Hs Hu Hf. unfold upstream_fails in Hu.
  apply orb_false_iff in Hu. destruct Hu as [Hr Hreply].
  apply negb_false_iff in Hr.
  destruct (ge_reply env) as [m|content_of'] eqn:E; [discriminate Hreply|].
  rewrite (generateAllContent_succeeded env id e st project content_of' Hp Hr E).
  cbn zeta. rewrite Hf, status_of_update, status_of_set_generated.
  destruct (ge_generating_served env); rewrite ?status_of_update, Hs; reflexivity.
Qed.


(** *** Refining from the page *)


(** X19. Without a prompt, or with a blank one, the page shows an
    error toast and sends nothing.  With a prompt for a section that is
    not on the page it sends nothing and shows no toast at all. *)
Theorem refineSection_sends_nothing_without_prompt_or_section
    (env : RefineSectionEnv) (id sectionId : Id) (e : EditorState) (w : World) :
  (match ed_refinementPrompts e !! sectionId with
   | Some prompt => blank prompt = true
   | None => True
   end ->
   refineSection env id sectionId e w
   = (Returned e,
      mkWorld (w_store w) (w_commits w)
        (w_toasts w ++ [toast_error "Please enter a refinement prompt"]))) /\
  (forall prompt,
     ed_refinementPrompts e !! sectionId = Some prompt -> blank prompt = false ->
     List.find (fun s => Nat.eqb (s_id s) sectionId) (ed_sections e) = None ->
     refineSection env id sectionId e w = (Returned (with_refining None e), w)).
Proof.
  unfold refineSection. split.
  - destruct (ed_refinementPrompts e !! sectionId) as [prompt|]; [|reflexivity].
    intros ->. reflexivity.
  - intros prompt -> -> ->. reflexivity.
Qed.

Lemma refineSection_answered (env : RefineSectionEnv) (id sectionId : Id)
    (e : EditorState) (w : World) (prompt content : string) (section : SectionRow) :
  ed_refinementPrompts e !! sectionId = Some prompt ->
  blank prompt = false ->
  List.find (fun s => Nat.eqb (s_id s) sectionId) (ed_sections e) = Some section ->
  rc_reached (rs_call env) = true ->
  api_key_configured (rc_function (rs_call env)) = true ->
  re_ai (rc_function (rs_call env)) = AiOk content ->
  let rq := mkRefineRequest sectionId prompt (s_content section) (s_title section) in
  let w1 := snd (refine_content (rc_function (rs_call env)) POST (Some rq) w) in
  exists e2 ts,
    loadProject (rs_reload env) id e w1
    = (Returned e2, mkWorld (w_store w1) (w_commits w1) ts) /\
    refineSection env id sectionId e w
    = (Returned (with_refining None
                   (with_refinementPrompts (<[sectionId := ""]> (ed_refinementPrompts e)) e2)),
       mkWorld (w_store w1) (w_commits w1)
         (ts ++ [toast_success "Section refined successfully!"])).
Proof.
  intros Hprompt Hblank Hfind Hreached Hkey Hai rq w1.
  destruct (loadProject_world (rs_reload env) id e w1) as (e2 & ts & Hload).
  exists e2, ts. split; [exact Hload|].
  unfold refineSection. rewrite Hprompt, Hblank, Hfind.
  unfold invoke_refine_content. rewrite Hreached.
  unfold bind, try_catch. fold rq.
  pose proof (refine_content_answer (rc_function (rs_call env)) POST (Some rq) w) as Hans.
  rewrite Hkey, Hai in Hans. subst w1.
  destruct (refine_content (rc_function (rs_call env)) POST (Some rq) w) as [r w1].
  cbn [fst snd] in *. subst r. cbn [ret]. rewrite Hload. reflexivity.
Qed.


(** X21. The audit row of a refine made from the page records, as
    previous content, the content of the section as the page holds it,
    not the one in the store. *)
Theorem page_refine_records_the_content_shown
    (env : RefineSectionEnv) (id sectionId : Id)
    (e : EditorState) (st : Store) (prompt content : string) (section : SectionRow) :
  ed_refinementPrompts e !! sectionId = Some prompt ->
  blank prompt = false ->
  List.find (fun s => Nat.eqb (s_id s) sectionId) (ed_sections e) = Some section ->
  rc_reached (rs_call env) = true ->
  api_key_configured (rc_function (rs_call env)) = true ->
  re_ai (rc_function (rs_call env)) = AiOk content ->
  re_history_served (rc_function (rs_call env)) = true ->
  re_section_served (rc_function (rs_call env)) = true ->
  has_section st sectionId = true ->
  let st' := final_store (run (refineSection env id sectionId e) st) in
  refinement_history st'
  = refinement_history st
    ++ [mkRefinement (next_id st) sectionId prompt (s_content section) content] /\
  content_of st' sectionId = Some (Some content).
Proof.
  intros Hprompt Hblank Hfind Hreached Hkey Hai Hh Hu Hs. cbn zeta.
  unfold final_store, run.
  destruct (refineSection_answered env id sectionId e (world_of st) prompt content section
              Hprompt Hblank Hfind Hreached Hkey Hai) as (e2 & ts & _ & ->).
  cbn [snd w_store].
  set (rq := mkRefineRequest sectionId prompt (s_content section) (s_title section)).
  destruct (refine_content_applied (rc_function (rs_call env)) rq content (world_of st)
              Hkey Hai Hh Hu Hs) as [_ ->].
  destruct (refined_spec rq content st Hs) as (_ & H1 & H2).
  split; [exact H1 | exact H2].
Qed.

(** *** Feedback and comments *)

(** X22. A like or dislike shows "Feedback recorded" whether or not
    a row was written: a row is appended exactly when the store serves
    the call and the section exists, and it carries the vote and no
    comment. *)
Theorem handleFeedback_toasts_whatever_the_store_did
    (served : bool) (sectionId : Id) (isLiked : bool) (w : World) :
  fst (handleFeedback served sectionId isLiked w) = Returned () /\
  w_toasts (snd (handleFeedback served sectionId isLiked w))
  = w_toasts w ++ [toast_success "Feedback recorded"] /\
  w_store (snd (handleFeedback served sectionId isLiked w))
  = (if served && has_section (w_store w) sectionId
     then mkStore (projects (w_store w)) (sections (w_store w))
            (refinement_history (w_store w))
            (feedback (w_store w)
               ++ [mkFeedback (next_id (w_store w)) sectionId (Some isLiked) None])
            (S (next_id (w_store w)))
     else w_store w).
Proof.
  unfold handleFeedback, bind, db_call, toast, upsert_feedback.
  cbn [fp_section_id fp_id fp_is_liked fp_comment].
  destruct served; cbn [andb]; [|repeat split].
  destruct (has_section (w_store w) sectionId); repeat split.
Qed.

(** X23. Saving a missing or blank comment does nothing at all.
    Saving another comment shows "Comment saved" whether or not a row
    was written; the row, appended exactly when the store serves the
    call and the section exists, carries the comment trimmed (not empty,
    no white space at either end) and no vote. *)
Theorem saveComment_stores_the_trimmed_comment
    (served : bool) (sectionId : Id) (e : EditorState) (w : World) :
  (match ed_comments e !! sectionId with
   | Some comment => blank comment = true
   | None => True
   end -> saveComment served sectionId e w = (Returned (), w)) /\
  (forall comment,
     ed_comments e !! sectionId = Some comment -> blank comment = false ->
     fst (saveComment served sectionId e w) = Returned () /\
     w_toasts (snd (saveComment served sectionId e w))
     = w_toasts w ++ [toast_success "Comment saved"] /\
     trim comment <> "" /\
     first_is_space (trim comment) = false /\ last_is_space (trim comment) = false /\
     w_store (snd (saveComment served sectionId e w))
     = (if served && has_section (w_store w) sectionId
        then mkStore (projects (w_store w)) (sections (w_store w))
               (refinement_history (w_store w))
               (feedback (w_store w)
                  ++ [mkFeedback (next_id (w_store w)) sectionId None (Some (trim comment))])
               (S (next_id (w_store w)))
        else w_store w)).
Proof.
  unfold saveComment. split.
  - destruct (ed_comments e !! sectionId) as [comment|]; [|reflexivity].
    intros ->. reflexivity.
  - intros comment -> Hb. rewrite Hb.
    destruct (trim_trimmed comment) as [H1 H2].
    assert (Hne : trim comment <> "")
      by (unfold blank in Hb; destruct (trim comment); [discriminate Hb | discriminate]).
    unfold bind, db_call, toast, upsert_feedback.
    cbn [fp_section_id fp_id fp_is_liked fp_comment].
    destruct served; cbn [andb]; [|repeat split; assumption].
    destruct (has_section (w_store w) sectionId); repeat split; assumption.
Qed.

(** *** Exported files *)

Lemma docx_children_length (topic : string) (secs : list SectionRow) :
  length (docx_children topic secs) = 1 + 2 * length secs.
Proof.
  unfold docx_children. cbn [length]. f_equal.
  induction secs as [|s l IH]; [reflexivity|]. cbn [flat_map app length]. rewrite IH. lia.
Qed.

(** The name and the size of an exported file. *)
Lemma export_file_name_and_size (project : ProjectRow) (secs : list SectionRow)
    (e : EditorState) (w : World) :
  exportDocument (with_project None e) w = (Returned None, w) /\
  exists file,
    exportDocument (with_sections secs (with_project (Some project) e)) w
    = (Returned (Some file),
       mkWorld (w_store w) (w_commits w)
         (w_toasts w ++ [toast_success "Document exported successfully!"])) /\
    match file with
    | DocxFile name doc =>
        p_document_type project = docx /\
        name = p_topic project +:+ ".docx" /\
        length (doc_children doc) = 1 + 2 * length secs
    | PptxFile name slides =>
        p_document_type project = pptx /\
        name = p_topic project +:+ ".pptx" /\
        length slides = 1 + length secs /\
        Forall (fun slide => length (slide_texts slide) = 2) (tl slides)
    end.
Proof.
  split; [reflexivity|].
  unfold exportDocument. cbn [ed_project with_sections with_project ed_sections].
  destruct (p_document_type project) eqn:Hdt; eexists; (split; [reflexivity|]).
  - cbn [doc_children]. repeat split. apply docx_children_length.
  - repeat split.
    + unfold pptx_slides. cbn [length]. rewrite length_map. reflexivity.
    + unfold pptx_slides. cbn [tl]. apply List.Forall_forall. intros slide Hin.
      apply List.in_map_iff in Hin. destruct Hin as (s & <- & _). reflexivity.
Qed.

Lemma docx_children_rendered (topic : string) (secs1 secs2 : list SectionRow) :
  map rendered secs1 = map rendered secs2 ->
  docx_children topic secs1 = docx_children topic secs2.
Proof.
  unfold docx_children. intros H. f_equal. revert secs2 H.
  induction secs1 as [|s l IH]; intros [|t k] H; try discriminate; [reflexivity|].
  cbn [map] in H. unfold rendered at 1 2 in H. injection H as Ht Hc Hl. cbn [flat_map].
  rewrite (IH k Hl), Ht. unfold content_or_empty. rewrite Hc. reflexivity.
Qed.

Lemma pptx_slides_rendered (topic : string) (secs1 secs2 : list SectionRow) :
  map rendered secs1 = map rendered secs2 ->
  pptx_slides topic secs1 = pptx_slides topic secs2.
Proof.
  unfold pptx_slides. intros H. f_equal. revert secs2 H.
  induction secs1 as [|s l IH]; intros [|t k] H; try discriminate; [reflexivity|].
  cbn [map] in H. unfold rendered at 1 2 in H. injection H as Ht Hc Hl. cbn [map].
  rewrite (IH k Hl), Ht. unfold content_or_empty. rewrite Hc. reflexivity.
Qed.

(** X24. The exported file depends on the sections only through
    their titles and contents, a null content counting as the empty
    string: ids, order positions and flags do not show. *)
Theorem export_depends_on_titles_and_contents_only
    (secs1 secs2 : list SectionRow) (e : EditorState) (w : World) :
  map rendered secs1 = map rendered secs2 ->
  exportDocument (with_sections secs1 e) w = exportDocument (with_sections secs2 e) w.
Proof.
  intros H. unfold exportDocument. cbn [ed_project with_sections ed_sections].
  destruct (ed_project e) as [project|]; [|reflexivity].
  rewrite (docx_children_rendered (p_topic project) secs1 secs2 H),
    (pptx_slides_rendered (p_topic project) secs1 secs2 H).
  reflexivity.
Qed.

(** *** The rendered page *)

Lemma imap_render_card (e : EditorState) (k : nat) (secs : list SectionRow) :
  map card_number (imap (fun i => render_card e (k + i)) secs) = seq (k + 1) (length secs) /\
  map card_title (imap (fun i => render_card e (k + i)) secs) = map s_title secs /\
  map card_controls (imap (fun i => render_card e (k + i)) secs)
  = map (fun s => truthy (s_content s)) secs /\
  Forall (fun c => card_text c <> "") (imap (fun i => render_card e (k + i)) secs).
Proof.
  revert k. induction secs as [|s l IH]; intros k; [repeat split; constructor|].
  cbn [imap map length seq]. destruct (IH (S k)) as (H1 & H2 & H3 & H4).
  assert (E : imap ((fun i => render_card e (k + i)) ∘ S) l
              = imap (fun i => render_card e (S k + i)) l).
  { apply imap_ext. intros i x _. cbn. f_equal. lia. }
  rewrite E, H1, H2, H3. rewrite Nat.add_0_r.
  repeat split.
  constructor; [|exact H4].
  cbn [render_card card_text]. destruct (s_content s) as [[|c t]|]; discriminate.
Qed.

(** X25. Once loaded, the page shows one card per section in the
    order of the list, numbered from 1, with the title of the section, a
    text that is never empty, and the refine, feedback and comment
    controls exactly on the sections that have a content. *)
Theorem editor_cards_follow_the_sections (e : EditorState) :
  ed_loading e = false ->
  exists heading cards,
    render_editor e
    = ViewPage heading (negb (existsb s_is_generated (ed_sections e))) (ed_generating e)
        (existsb (fun s => truthy (s_content s)) (ed_sections e)) cards /\
    map card_number cards = seq 1 (length (ed_sections e)) /\
    map card_title cards = map s_title (ed_sections e) /\
    map card_controls cards = map (fun s => truthy (s_content s)) (ed_sections e) /\
    Forall (fun c => card_text c <> "") cards.
Proof.
  intros Hl. unfold render_editor. rewrite Hl. eexists _, _. split; [reflexivity|].
  apply (imap_render_card e 0).
Qed.

Lemma rendered_bodies_docx (topic : string) (secs : list SectionRow) :
  export_bodies (DocxFile (topic +:+ ".docx") (mkDocument (docx_children topic secs)))
  = Some (map (fun s => content_or_empty (s_content s)) secs).
Proof.
  unfold export_bodies, docx_children. cbn [doc_children tl].
  rewrite docx_entries_sections. cbn [option_map]. rewrite List.map_map. reflexivity.
Qed.

Lemma rendered_bodies_pptx (topic : string) (secs : list SectionRow) :
  export_bodies (PptxFile (topic +:+ ".pptx") (pptx_slides topic secs))
  = Some (map (fun s => content_or_empty (s_content s)) secs).
Proof.
  unfold export_bodies, pptx_slides. cbn [tl].
  rewrite pptx_entries_sections. cbn [option_map]. rewrite List.map_map. reflexivity.
Qed.

Lemma truthy_body (secs : list SectionRow) :
  existsb (fun s => truthy (s_content s)) secs = true <->
  Exists (fun b => b <> "") (map (fun s => content_or_empty (s_content s)) secs).
Proof.
  induction secs as [|s l IH]; cbn [existsb map].
  - split; [discriminate | intros H; inversion H].
  - rewrite orb_true_iff, Exists_cons, IH.
    assert (E : truthy (s_content s) = true <-> content_or_empty (s_content s) <> "").
    { destruct (s_content s) as [[|c t]|]; cbn; split; congruence. }
    rewrite E. reflexivity.
Qed.

(** X26. A click on Export produces a file only when the button is
    rendered, and then some section body of the file is not empty; the
    button is rendered whenever the page is loaded with a project and
    some section has a content. *)
Theorem export_offered_iff_some_body_is_not_empty (e : EditorState) (w : World) :
  (forall file,
     fst (click_export e w) = Returned (Some file) ->
     exists bodies, export_bodies file = Some bodies /\ Exists (fun b => b <> "") bodies) /\
  (ed_loading e = false -> ed_project e <> None ->
   Exists (fun b => b <> "") (map (fun s => content_or_empty (s_content s)) (ed_sections e)) ->
   exists file, fst (click_export e w) = Returned (Some file)).
Proof.
  unfold click_export, render_editor. split.
  - intros file. destruct (ed_loading e); [discriminate|].
    destruct (existsb _ (ed_sections e)) eqn:Hshown; [|discriminate].
    apply truthy_body in Hshown.
    unfold exportDocument. destruct (ed_project e) as [project|]; [|discriminate].
    destruct (p_document_type project); cbn; intros H; injection H as <-; eexists;
      (split; [first [apply rendered_bodies_docx | apply rendered_bodies_pptx] | exact Hshown]).
  - intros Hl Hp Hb. rewrite Hl. apply truthy_body in Hb. rewrite Hb.
    unfold exportDocument. destruct (ed_project e) as [project|]; [|congruence].
    destruct (p_document_type project); eexists; reflexivity.
Qed.

(** *** Refining through the button *)

Lemma refine_content_rows (env : RefineEnv) (rq : RefineRequest) (w : World) :
  exists added,
    refinement_history (w_store (snd (refine_content env POST (Some rq) w)))
    = refinement_history (w_store w) ++ added /\
    Forall (fun r => r_section_id r = rq_sectionId rq /\ r_prompt r = rq_prompt rq /\
                     r_previous_content r = rq_currentContent rq) added.
Proof.
  unfold refine_content, try_catch, bind, throw, ret, db_call,
    update_section_content, insert_refinement.
  assert (Hsame : exists added,
            refinement_history (w_store w) = refinement_history (w_store w) ++ added /\
            Forall (fun r => r_section_id r = rq_sectionId rq /\ r_prompt r = rq_prompt rq /\
                             r_previous_content r = rq_currentContent rq) added).
  { exists []. rewrite app_nil_r. split; [reflexivity | constructor]. }
  destruct (re_api_key env) as [[|c k]|]; try exact Hsame.
  destruct (re_ai env) as [| | |content]; try exact Hsame.
  destruct (re_history_served env), (re_section_served env);
    destruct (has_section (w_store w) (rq_sectionId rq));
    cbn [fst snd w_store w_commits w_toasts refinement_history set_content];
    try exact Hsame.
  all: eexists; split; [reflexivity|]; repeat constructor.
Qed.

Lemma refineSection_store (env : RefineSectionEnv) (id sectionId : Id)
    (e : EditorState) (w : World) :
  w_store (snd (refineSection env id sectionId e w)) = w_store w \/
  exists prompt section,
    ed_refinementPrompts e !! sectionId = Some prompt /\
    List.find (fun s => Nat.eqb (s_id s) sectionId) (ed_sections e) = Some section /\
    w_store (snd (refineSection env id sectionId e w))
    = w_store (snd (refine_content (rc_function (rs_call env)) POST
                      (Some (mkRefineRequest sectionId prompt (s_content section)
                               (s_title section))) w)).
Proof.
  unfold refineSection.
  destruct (ed_refinementPrompts e !! sectionId) as [prompt|]; [|left; reflexivity].
  destruct (blank prompt); [left; reflexivity|].
  destruct (List.find _ (ed_sections e)) as [section|]; [|left; reflexivity].
  unfold invoke_refine_content.
  destruct (rc_reached (rs_call env)); [|left; reflexivity].
  right. exists prompt, section. split; [reflexivity|]. split; [reflexivity|].
  unfold bind, try_catch.
  set (rq := mkRefineRequest sectionId prompt (s_content section) (s_title section)).
  pose proof (refine_content_answer (rc_function (rs_call env)) POST (Some rq) w) as Hans.
  destruct (refine_content (rc_function (rs_call env)) POST (Some rq) w) as [[resp|err] w1];
    [|discriminate Hans].
  cbn [snd]. destruct resp as [|content|err]; cbn [ret throw].
  - destruct (loadProject_world (rs_reload env) id e w1) as (e2 & ts & ->). reflexivity.
  - destruct (loadProject_world (rs_reload env) id e w1) as (e2 & ts & ->). reflexivity.
  - reflexivity.
Qed.

Lemma find_by_id_at (l : list SectionRow) (k : nat) (s : SectionRow) :
  NoDup (map s_id l) -> l !! k = Some s ->
  List.find (fun x => Nat.eqb (s_id x) (s_id s)) l = Some s.
Proof.
  revert k. induction l as [|x l IH]; intros k Hnd Hk; [discriminate|].
  cbn [map] in Hnd. apply NoDup_cons in Hnd. destruct Hnd as [Hx Hnd].
  destruct k as [|k]; cbn in Hk.
  - injection Hk as ->. cbn [List.find]. rewrite Nat.eqb_refl. reflexivity.
  - cbn [List.find]. destruct (Nat.eqb_spec (s_id x) (s_id s)) as [E|E].
    + exfalso. apply Hx. rewrite E. apply list_elem_of_In, List.in_map.
      apply list_elem_of_In, list_elem_of_lookup. eauto.
    + eapply IH; eassumption.
Qed.

(** X27. With distinct section ids on the page, every audit row
    written through a Refine button records a previous content that is
    neither null nor empty, namely the content of the card's section. *)
Theorem button_refine_never_records_an_empty_previous_content
    (env : RefineSectionEnv) (id : Id) (index : nat) (e : EditorState) (w : World) :
  NoDup (map s_id (ed_sections e)) ->
  exists added,
    refinement_history (w_store (snd (click_refine env id index e w)))
    = refinement_history (w_store w) ++ added /\
    Forall (fun r => truthy (r_previous_content r) = true /\
                     exists section, ed_sections e !! index = Some section /\
                       r_section_id r = s_id section /\
                       r_previous_content r = s_content section) added.
Proof.
  intros Hnd.
  assert (Hsame : exists added,
            refinement_history (w_store w) = refinement_history (w_store w) ++ added /\
            Forall (fun r => truthy (r_previous_content r) = true /\
                     exists section, ed_sections e !! index = Some section /\
                       r_section_id r = s_id section /\
                       r_previous_content r = s_content section) added).
  { exists []. rewrite app_nil_r. split; [reflexivity | constructor]. }
  unfold click_refine, render_editor.
  destruct (ed_loading e); [exact Hsame|].
  rewrite list_lookup_imap.
  destruct (ed_sections e !! index) as [section|] eqn:Hk; cbn [fmap option_fmap option_map];
    [|exact Hsame].
  cbn [render_card card_controls card_refine_disabled].
  destruct (truthy (s_content section)) eqn:Htruthy; cbn [andb]; [|exact Hsame].
  destruct (negb _); [|exact Hsame].
  destruct (refineSection_store env id (s_id section) e w)
    as [->|(prompt & section' & _ & Hfind & ->)]; [exact Hsame|].
  rewrite (find_by_id_at _ _ _ Hnd Hk) in Hfind. injection Hfind as <-.
  destruct (refine_content_rows (rc_function (rs_call env))
              (mkRefineRequest (s_id section) prompt (s_content section) (s_title section)) w)
    as (added & Hadded & Hrows).
  exists added. split; [exact Hadded|].
  eapply Forall_impl; [exact Hrows|].
  cbn [rq_sectionId rq_prompt rq_currentContent]. intros r (H1 & _ & H3).
  split; [rewrite H3; exact Htruthy|]. exists section. auto.
Qed.

(** *** No action rejects *)

Lemma returns_ret {A} (a : A) : returns (ret a).
Proof. intros w. eexists. reflexivity. Qed.

Lemma returns_bind {A B} (m : Async A) (k : A -> Async B) :
  returns m -> (forall a, returns (k a)) -> returns (bind m k).
Proof.
  intros Hm Hk w. unfold bind. destruct (Hm w) as [a Ha].
  destruct (m w) as [[a'|err] w']; [|discriminate Ha]. apply Hk.
Qed.

Lemma returns_try_catch {A} (m : Async A) (h : string -> Async A) :
  (forall e, returns (h e)) -> returns (try_catch m h).
Proof.
  intros Hh w. unfold try_catch. destruct (m w) as [[a|err] w'];
    [eexists; reflexivity | apply Hh].
Qed.

Lemma returns_toast (t : Toast) : returns (toast t).
Proof. intros w. eexists. reflexivity. Qed.

Lemma returns_db_call {A} (served : bool) (stmt : Store -> PgResult A * Store) :
  returns (db_call served stmt).
Proof. intros w. apply db_call_returns. Qed.

Lemma returns_db_read {A} (served : bool) (q : Store -> PgResult A) :
  returns (db_read served q).
Proof. intros w. unfold db_read. destruct served; eexists; reflexivity. Qed.

Ltac returns_step :=
  lazymatch goal with
  | |- returns (bind _ _) => apply returns_bind; [|intros ?]
  | |- returns (try_catch _ _) => apply returns_try_catch; intros ?
  | |- returns (ret _) => apply returns_ret
  | |- returns (toast _) => apply returns_toast
  | |- returns (db_call _ _) => apply returns_db_call
  | |- returns (db_read _ _) => apply returns_db_read
  | |- returns (match ?x with _ => _ end) => destruct x
  | |- returns (if ?x then _ else _) => destruct x
  end.

Lemma exec_returns (op : Op) : returns (exec op).
Proof.
  destruct op; cbn [exec];
    unfold handleSubmit, generateOutline, generate_outline_function,
      generateAllContent, invoke_generate_content, generate_content_function,
      refineSection, invoke_refine_content, refine_content, handleFeedback,
      saveComment, exportDocument, loadProject;
    repeat returns_step.
Qed.

(** X14. No action of the pages and no request to the endpoint ends
    in an uncaught exception: every sequence of operations returns. *)
Theorem no_action_rejects (ops : list Op) (w : World) :
  exists u, fst (exec_all ops w) = Returned u.
Proof.
  revert w. change (returns (exec_all ops)).
  induction ops as [|op ops IH]; cbn [exec_all foldr].
  - apply returns_ret.
  - apply returns_bind; [apply exec_returns | intros _; exact IH].
Qed.

(** *** Deleting a project *)

(** X28. Deleting a project removes its row and, by the cascades of
    the schema, its sections; the other projects and their sections
    stay as they are, and no reference is left dangling. *)
Theorem delete_project_cascades (id : Id) (st : Store) :
  let st' := snd (delete_project id st) in
  has_project st' id = false /\
  Forall (fun s => s_project_id s <> id) (sections st') /\
  (forall s, In s (sections st') <-> In s (sections st) /\ s_project_id s <> id) /\
  (forall p, In p (projects st') <-> In p (projects st) /\ p_id p <> id) /\
  (fk_ok st -> fk_ok st').
Proof.
  cbn zeta. unfold delete_project. cbn [snd].
  assert (Hsec : forall s,
            In s (List.filter (fun s => negb (Nat.eqb (s_project_id s) id)) (sections st))
            <-> In s (sections st) /\ s_project_id s <> id).
  { intros s. rewrite List.filter_In, negb_true_iff, Nat.eqb_neq. reflexivity. }
  assert (Hproj : forall p,
            In p (List.filter (fun p => negb (Nat.eqb (p_id p) id)) (projects st))
            <-> In p (projects st) /\ p_id p <> id).
  { intros p. rewrite List.filter_In, negb_true_iff, Nat.eqb_neq. reflexivity. }
  split; [|split; [|split; [|split]]].
  - apply not_true_is_false. intros H. apply has_project_in in H. cbn [projects] in H.
    apply List.in_map_iff in H. destruct H as (p & E & Hin).
    apply Hproj in Hin. destruct Hin as [_ Hne]. congruence.
  - cbn [sections]. apply List.Forall_forall. intros s Hin. apply Hsec, Hin.
  - exact Hsec.
  - exact Hproj.
  - intros (F1 & F2 & F3). rewrite List.Forall_forall in F1, F2, F3.
    unfold fk_ok. cbn [projects sections refinement_history feedback].
    rewrite !List.Forall_forall.
    assert (Hkeep : forall sid,
              has_section st sid = true ->
              existsb (fun s => Nat.eqb (s_id s) sid && Nat.eqb (s_project_id s) id)
                      (sections st) = false ->
              existsb (fun s => Nat.eqb (s_id s) sid)
                (List.filter (fun s => negb (Nat.eqb (s_project_id s) id)) (sections st))
              = true).
    { intros sid Hhas Hgone. unfold has_section in Hhas.
      apply existsb_exists in Hhas. destruct Hhas as (s & Hin & E).
      apply existsb_exists. exists s. split; [|exact E].
      apply Hsec. split; [exact Hin|]. intros Hp.
      assert (Hc : existsb (fun s => Nat.eqb (s_id s) sid && Nat.eqb (s_project_id s) id)
                     (sections st) = true).
      { apply existsb_exists. exists s. split; [exact Hin|].
        rewrite E. apply Nat.eqb_eq in Hp. rewrite Hp. reflexivity. }
      congruence. }
    repeat split.
    + intros s Hin. apply Hsec in Hin. destruct Hin as [Hin Hne].
      specialize (F1 s Hin). apply has_project_in in F1. apply has_project_in.
      cbn [projects]. apply List.in_map_iff in F1. destruct F1 as (p & E & Hp).
      apply List.in_map_iff. exists p. split; [exact E|].
      apply Hproj. split; [exact Hp | congruence].
    + intros r Hin. apply List.filter_In in Hin. destruct Hin as [Hin Hg].
      apply negb_true_iff in Hg. unfold has_section. cbn [sections].
      apply Hkeep; [apply F2, Hin | exact Hg].
    + intros f Hin. apply List.filter_In in Hin. destruct Hin as [Hin Hg].
      apply negb_true_iff in Hg. unfold has_section. cbn [sections].
      apply Hkeep; [apply F3, Hin | exact Hg].
Qed.

(** *** Row level security *)

Lemma owns_project_owner (st : Store) (uid project_id : Id) :
  owns_project st uid project_id = true ->
  exists p, In p (projects st) /\ p_id p = project_id /\ p_user_id p = uid.
Proof.
  unfold owns_project. rewrite existsb_exists. intros (p & Hin & E).
  apply andb_true_iff in E. destruct E as [E1 E2].
  apply Nat.eqb_eq in E1, E2. eauto.
Qed.

Lemma same_id_same_row {A} (key : A -> Id) (l : list A) (a b : A) :
  NoDup (map key l) -> In a l -> In b l -> key a = key b -> a = b.
Proof.
  induction l as [|x l IH]; [intros _ []|].
  cbn [map]. intros Hnd Ha Hb E. apply NoDup_cons in Hnd. destruct Hnd as [Hx Hnd].
  destruct Ha as [->|Ha], Hb as [->|Hb]; [reflexivity| | |apply IH; assumption].
  - exfalso. apply Hx. rewrite E. apply list_elem_of_In, List.in_map, Hb.
  - exfalso. apply Hx. rewrite <- E. apply list_elem_of_In, List.in_map, Ha.
Qed.

Lemma owns_section_owner (st : Store) (uid section_id : Id) :
  owns_section st uid section_id = true ->
  exists s, In s (sections st) /\ s_id s = section_id /\
            owns_project st uid (s_project_id s) = true.
Proof.
  unfold owns_section. rewrite existsb_exists. intros (s & Hin & E).
  apply andb_true_iff in E. destruct E as [E1 E2]. apply Nat.eqb_eq in E1. eauto.
Qed.

(** X29. Under the primary keys of projects and sections, the SELECT
    policies show no project, section, audit row or feedback row to two
    different users. *)
Theorem rows_are_visible_to_one_user_only (st : Store) (uid1 uid2 : Id) :
  pk_ok st ->
  (forall p, policy_projects SELECT uid1 p = true -> policy_projects SELECT uid2 p = true ->
             uid1 = uid2) /\
  (forall s, policy_sections SELECT st uid1 s = true ->
             policy_sections SELECT st uid2 s = true -> uid1 = uid2) /\
  (forall r, policy_refinement_history SELECT st uid1 r = true ->
             policy_refinement_history SELECT st uid2 r = true -> uid1 = uid2) /\
  (forall f, policy_feedback SELECT st uid1 f = true ->
             policy_feedback SELECT st uid2 f = true -> uid1 = uid2).
Proof.
  intros [Hp Hs].
  assert (Hproj : forall pid, owns_project st uid1 pid = true ->
                              owns_project st uid2 pid = true -> uid1 = uid2).
  { intros pid H1 H2.
    destruct (owns_project_owner _ _ _ H1) as (p1 & Hin1 & Hid1 & <-).
    destruct (owns_project_owner _ _ _ H2) as (p2 & Hin2 & Hid2 & <-).
    rewrite (same_id_same_row p_id (projects st) p1 p2 Hp Hin1 Hin2); congruence. }
  assert (Hsec : forall sid, owns_section st uid1 sid = true ->
                             owns_section st uid2 sid = true -> uid1 = uid2).
  { intros sid H1 H2.
    destruct (owns_section_owner _ _ _ H1) as (s1 & Hin1 & Hid1 & Ho1).
    destruct (owns_section_owner _ _ _ H2) as (s2 & Hin2 & Hid2 & Ho2).
    assert (s1 = s2) by (apply (same_id_same_row s_id (sections st)); congruence).
    subst s2. eapply Hproj; eassumption. }
  repeat split.
  - intros p H1 H2. unfold policy_projects in *. apply Nat.eqb_eq in H1, H2. congruence.
  - intros s. apply Hproj.
  - intros r. apply Hsec.
  - intros f. apply Hsec.
Qed.

(** X30. No policy lets a user update or delete an audit row, or
    delete a feedback row; and whatever a user may do to an audit row,
    the row belongs to a section and a project that the user may see. *)
Theorem audit_rows_cannot_be_rewritten_by_users (st : Store) (uid : Id) :
  (forall r, policy_refinement_history UPDATE st uid r = false /\
             policy_refinement_history DELETE st uid r = false) /\
  (forall f, policy_feedback DELETE st uid f = false) /\
  (forall cmd r, policy_refinement_history cmd st uid r = true ->
     exists s p, In s (sections st) /\ s_id s = r_section_id r /\
                 policy_sections SELECT st uid s = true /\
                 In p (projects st) /\ p_id p = s_project_id s /\
                 policy_projects SELECT uid p = true).
Proof.
  split; [intros r; split; reflexivity|]. split; [reflexivity|].
  intros cmd r H. assert (Ho : owns_section st uid (r_section_id r) = true)
    by (destruct cmd; [exact H | exact H | discriminate H | discriminate H]).
  destruct (owns_section_owner _ _ _ Ho) as (s & Hin & Hid & Hown).
  destruct (owns_project_owner _ _ _ Hown) as (p & Hp & Hpid & Hu).
  exists s, p. repeat split; try assumption.
  unfold policy_projects. apply Nat.eqb_eq. congruence.
Qed.

(** *** Instances *)

Lemma addSection_removeSection_round_trip_witness :
  removeSection 2 (addSection (mkConfigure docx "T" ["A"; "B"] false false))
  = mkConfigure docx "T" ["A"; "B"] false false.
Proof.
  apply (addSection_removeSection_round_trip (mkConfigure docx "T" ["A"; "B"] false false)).
  discriminate.
Defined.

Lemma updateSection_in_range_witness :
  length (cf_sections (updateSection 1 "C" (mkConfigure docx "T" ["A"; "B"] false false)))
  = 2 /\
  cf_sections (updateSection 1 "C" (mkConfigure docx "T" ["A"; "B"] false false)) !! 1
  = Some "C" /\
  (forall j, j <> 1 ->
     cf_sections (updateSection 1 "C" (mkConfigure docx "T" ["A"; "B"] false false)) !! j
     = ["A"; "B"] !! j).
Proof.
  apply (updateSection_in_range 1 "C" (mkConfigure docx "T" ["A"; "B"] false false)).
  cbn. lia.
Defined.

Lemma references_stay_valid_witness :
  fk_ok (final_store
           (run (exec_all
                   [OpSubmit (Some 7) (mkSubmitEnv true true)
                      (mkConfigure docx "T" ["A"] false false);
                    OpRefineEndpoint (mkRefineEnv (Some "key") (AiOk "new") true true) POST
                      (Some (mkRefineRequest 1 "shorter" None "A"));
                    OpFeedback true 1 true])
                empty_store)).
Proof.
  apply references_stay_valid. repeat split; constructor.
Defined.

Lemma successful_generation_completes_when_served_witness :
  status_of
    (final_store
       (run (generateAllContent
               (mkGenerateEnv false true (GenSucceeded (fun _ => "text")) true
                  (mkLoadEnv true true))
               0
               (mkEditor (Some (mkProject 0 7 docx "T" draft))
                  [mkSection 1 0 0 "A" None false] false false None ∅ ∅))
            (mkStore [mkProject 0 7 docx "T" draft]
               [mkSection 1 0 0 "A" None false] [] [] 2))) 0
  = Some completed.
Proof.
  apply (successful_generation_completes_when_served _ _ _ _
           (mkProject 0 7 docx "T" draft) draft); reflexivity.
Defined.



Lemma page_refine_records_the_content_shown_witness :
  let st := mkStore [mkProject 0 7 docx "T" completed]
              [mkSection 1 0 0 "A" (Some "stored") true] [] [] 2 in
  let e := mkEditor (Some (mkProject 0 7 docx "T" completed))
             [mkSection 1 0 0 "A" (Some "shown") true] false false None
             (<[1 := "shorter"]> ∅) ∅ in
  let env := mkRefineSectionEnv
               (mkRefineCallEnv true (mkRefineEnv (Some "key") (AiOk "new") true true))
               (mkLoadEnv true true) in
  refinement_history (final_store (run (refineSection env 0 1 e) st))
  = refinement_history st ++ [mkRefinement 2 1 "shorter" (Some "shown") "new"] /\
  content_of (final_store (run (refineSection env 0 1 e) st)) 1 = Some (Some "new").
Proof.
  intros st e env.
  apply (page_refine_records_the_content_shown env 0 1 e st "shorter" "new"
           (mkSection 1 0 0 "A" (Some "shown") true)); reflexivity.
Defined.

Lemma export_depends_on_titles_and_contents_only_witness :
  let e := mkEditor (Some (mkProject 0 7 docx "T" draft)) [] false false None ∅ ∅ in
  exportDocument (with_sections [mkSection 1 0 0 "A" None false] e) (world_of empty_store)
  = exportDocument (with_sections [mkSection 5 9 3 "A" (Some "") true] e)
      (world_of empty_store).
Proof.
  intros e. apply export_depends_on_titles_and_contents_only. reflexivity.
Defined.

Lemma editor_cards_follow_the_sections_witness :
  let e := mkEditor (Some (mkProject 0 7 docx "T" draft))
             [mkSection 1 0 0 "A" None false; mkSection 2 0 1 "B" (Some "b") true]
             false false None ∅ ∅ in
  exists heading cards,
    render_editor e
    = ViewPage heading (negb (existsb s_is_generated (ed_sections e))) (ed_generating e)
        (existsb (fun s => truthy (s_content s)) (ed_sections e)) cards /\
    map card_number cards = seq 1 (length (ed_sections e)) /\
    map card_title cards = map s_title (ed_sections e) /\
    map card_controls cards = map (fun s => truthy (s_content s)) (ed_sections e) /\
    Forall (fun c => card_text c <> "") cards.
Proof.
  intros e. apply editor_cards_follow_the_sections. reflexivity.
Defined.

Lemma button_refine_never_records_an_empty_previous_content_witness :
  let st := mkStore [mkProject 0 7 docx "T" completed]
              [mkSection 1 0 0 "A" (Some "old") true] [] [] 2 in
  let e := mkEditor (Some (mkProject 0 7 docx "T" completed))
             [mkSection 1 0 0 "A" (Some "old") true] false false None
             (<[1 := "shorter"]> ∅) ∅ in
  let env := mkRefineSectionEnv
               (mkRefineCallEnv true (mkRefineEnv (Some "key") (AiOk "new") true true))
               (mkLoadEnv true true) in
  exists added,
    refinement_history (w_store (snd (click_refine env 0 0 e (world_of st))))
    = refinement_history (w_store (world_of st)) ++ added /\
    Forall (fun r => truthy (r_previous_content r) = true /\
                     exists section, ed_sections e !! 0 = Some section /\
                       r_section_id r = s_id section /\
                       r_previous_content r = s_content section) added.
Proof.
  intros st e env.
  apply (button_refine_never_records_an_empty_previous_content env 0 0 e (world_of st)).
  cbn. repeat constructor. intros H. inversion H.
Defined.

Lemma rows_are_visible_to_one_user_only_witness :
  let st := mkStore [mkProject 0 7 docx "T" draft; mkProject 3 8 pptx "U" draft]
              [mkSection 1 0 0 "A" None false; mkSection 4 3 0 "B" None false] [] [] 5 in
  (forall p, policy_projects SELECT 7 p = true -> policy_projects SELECT 8 p = true ->
             7 = 8) /\
  (forall s, policy_sections SELECT st 7 s = true ->
             policy_sections SELECT st 8 s = true -> 7 = 8) /\
  (forall r, policy_refinement_history SELECT st 7 r = true ->
             policy_refinement_history SELECT st 8 r = true -> 7 = 8) /\
  (forall f, policy_feedback SELECT st 7 f = true ->
             policy_feedback SELECT st 8 f = true -> 7 = 8).
Proof.
  intros st. apply (rows_are_visible_to_one_user_only st 7 8).
  split; cbn; repeat constructor; cbn; intros H;
    repeat match goal with
           | H : In _ _ |- _ => destruct H; try discriminate
           | H : _ ∈ _ |- _ => inversion H; clear H; subst
           end.
Defined.
